(** * CachyOS kernel manager: the scheduler window and the kernel window

    A shallow embedding of [src/schedext-window.cpp] and
    [src/km-window.cpp].  Effects of the C++ code (file reads, external
    commands, detached processes, output on the standard streams, calls
    into libalpm) are recorded in a chronological list of events; widget
    and member state is passed explicitly. *)

From Stdlib Require Import String Ascii List Bool Arith PeanoNat Lia.
Import ListNotations.
Local Open Scope string_scope.

(** ** Text helpers: [std::string], [QString] and [fmt::format] *)

Module Text.

(** The characters the sources write as escapes inside literals. *)
Definition nl : string := String "010"%char EmptyString.
Definition dq : string := String "034"%char EmptyString.

(** [std::string::empty]. *)
Definition empty (s : string) : bool :=
  match s with
  | EmptyString => true
  | String _ _ => false
  end.

(** [std::string::find(needle) != npos]. *)
Definition contains (needle haystack : string) : bool :=
  match index 0 needle haystack with
  | Some _ => true
  | None => false
  end.

(** A [QString] is modelled as the sequence of its code units, for
    texts whose code points are below 256.  [QChar::isSpace] on that
    range: the blank, tab to carriage return, NEL and the no-break
    space. *)
Definition QString := string.

Definition isSpace (c : ascii) : bool :=
  let n := nat_of_ascii c in
  ((n =? 32) || ((9 <=? n) && (n <=? 13)) || (n =? 133) || (n =? 160))%nat.

Fixpoint drop_spaces (l : list ascii) : list ascii :=
  match l with
  | [] => []
  | c :: r => if isSpace c then drop_spaces r else l
  end.

(** [QString::trimmed]: white space removed from both ends. *)
Definition trimmed (q : QString) : QString :=
  string_of_list_ascii
    (rev (drop_spaces (rev (drop_spaces (list_ascii_of_string q))))).

(** [QString::toStdString]: the UTF-8 encoding of the text. *)
Definition utf8 (c : ascii) : string :=
  let n := nat_of_ascii c in
  if (n <? 128)%nat then String c EmptyString
  else String (ascii_of_nat (192 + n / 64))
         (String (ascii_of_nat (128 + n mod 64)) EmptyString).

Fixpoint toStdString (q : QString) : string :=
  match q with
  | EmptyString => EmptyString
  | String c r => utf8 c ++ toStdString r
  end.

(** [QString::fromStdString] and the constructor from a C string.
    A text that enters Qt from a [std::string] is kept as that string:
    package names, scheduler names and systemctl words are 7-bit, and
    the command line handed to [QProcess] is encoded back on its way
    out. *)
Definition fromStdString (s : string) : QString := s.

(** The text [std::getline] stores: everything before the first
    newline. *)
Fixpoint read_line (s : string) : string :=
  match s with
  | EmptyString => EmptyString
  | String c r =>
      if Ascii.eqb c "010"%char then EmptyString else String c (read_line r)
  end.

(** [std::getline] on a fresh stream: it fails exactly when no
    character at all could be extracted. *)
Definition getline (content : string) : option string :=
  match content with
  | EmptyString => None
  | String _ _ => Some (read_line content)
  end.

End Text.

(** ** The scheduler window, [src/schedext-window.cpp] *)

Module SchedExt.
Import Text.

(** What opening and reading a path can give. *)
Inductive file :=
| Missing                     (* the stream does not open *)
| Unreadable                  (* it opens, the read fails *)
| Content (text : string).

(** The world outside the process.  [exec] and [read_whole_file] stand
    for the helpers of [utils.hpp], which is not among the sources: the
    output of a command, the text of a file. *)
Record Env := {
  file_system : string -> file;
  exec : string -> string;
  read_whole_file : string -> string
}.

Inductive event :=
| OpenFile (path : string)
| Stderr (msg : string)
| Stdout (msg : string)
| Exec (cmd : string)
| ReadWholeFile (path : string)
| StartDetached (program : string) (arguments : list string).

(** Computations that consult the world and leave a trace. *)
Definition IO (A : Type) : Type := Env -> A * list event.

Definition ret {A} (a : A) : IO A := fun _ => (a, []).

Definition bind {A B} (m : IO A) (k : A -> IO B) : IO B :=
  fun env =>
    let (a, t1) := m env in
    let (b, t2) := k a env in
    (b, (t1 ++ t2)%list).

Definition emit (e : event) : IO unit := fun _ => (tt, [e]).

Definition ifstream (path : string) : IO file :=
  fun env => (file_system env path, [OpenFile path]).

Definition utils_exec (cmd : string) : IO string :=
  fun env => (exec env cmd, [Exec cmd]).

Definition utils_read_whole_file (path : string) : IO string :=
  fun env => (read_whole_file env path, [ReadWholeFile path]).

Definition value {A} (r : A * list event) : A := fst r.
Definition trace {A} (r : A * list event) : list event := snd r.

Declare Scope io_scope.
Delimit Scope io_scope with io.
Notation "x <- m ;; k" := (bind m (fun x => k))
  (at level 61, m at next level, right associativity) : io_scope.
Notation "m ;; k" := (bind m (fun _ => k))
  (at level 61, right associativity) : io_scope.
Local Open Scope io_scope.

Definition state_path : string := "/sys/kernel/sched_ext/state".
Definition ops_path : string := "/sys/kernel/sched_ext/root/ops".

Definition read_kernel_file (file_path : string) : IO string :=
  file_stream <- ifstream file_path ;;
  match file_stream with
  | Missing => ret EmptyString
  | Unreadable =>
      emit (Stderr ("Failed to read := '" ++ file_path ++ "'" ++ nl)) ;;
      ret EmptyString
  | Content text =>
      match getline text with
      | None =>
          emit (Stderr ("Failed to read := '" ++ file_path ++ "'" ++ nl)) ;;
          ret EmptyString
      | Some file_content => ret file_content
      end
  end.

Definition get_current_scheduler : IO string :=
  current_state <- read_kernel_file state_path ;;
  if negb (current_state =? "enabled") then ret current_state
  else
    current_sched <- read_kernel_file ops_path ;;
    if empty current_sched then ret "unknown" else ret current_sched.

Definition is_scx_service_enabled : IO bool :=
  out <- utils_exec "systemctl is-enabled scx" ;;
  ret (out =? "enabled").

Definition is_scx_service_active : IO bool :=
  out <- utils_exec "systemctl is-active scx" ;;
  ret (out =? "active").

(** The widgets of the form the slots touch. *)
Record Ui := {
  disable_button : bool;           (* enabled? *)
  apply_button : bool;             (* enabled? *)
  schedext_flags_edit : QString;
  schedext_combo_box : QString;    (* current text *)
  current_sched_label : QString
}.

Definition set_disable_button (b : bool) (u : Ui) : Ui :=
  {| disable_button := b;
     apply_button := apply_button u;
     schedext_flags_edit := schedext_flags_edit u;
     schedext_combo_box := schedext_combo_box u;
     current_sched_label := current_sched_label u |}.

Definition set_apply_button (b : bool) (u : Ui) : Ui :=
  {| disable_button := disable_button u;
     apply_button := b;
     schedext_flags_edit := schedext_flags_edit u;
     schedext_combo_box := schedext_combo_box u;
     current_sched_label := current_sched_label u |}.

Definition set_current_sched_label (t : QString) (u : Ui) : Ui :=
  {| disable_button := disable_button u;
     apply_button := apply_button u;
     schedext_flags_edit := schedext_flags_edit u;
     schedext_combo_box := schedext_combo_box u;
     current_sched_label := t |}.

Definition update_current_sched (u : Ui) : IO Ui :=
  s <- get_current_scheduler ;;
  ret (set_current_sched_label (fromStdString s) u).

Definition pkexec : string := "/usr/bin/pkexec".

Definition on_disable (u : Ui) : IO Ui :=
  let u := set_disable_button false u in
  let u := set_apply_button false u in
  (enabled <- is_scx_service_enabled ;;
   if enabled then
     emit (StartDetached pkexec ["/usr/bin/systemctl"; "disable"; "--now"; "scx"]) ;;
     emit (Stdout ("Disabling scx" ++ nl))
   else
     active <- is_scx_service_active ;;
     if active then
       emit (StartDetached pkexec ["/usr/bin/systemctl"; "stop"; "scx"]) ;;
       emit (Stdout ("Stoping scx" ++ nl))
     else ret tt) ;;
  let u := set_disable_button true u in
  let u := set_apply_button true u in
  ret u.

(** The three lambdas of [on_apply]. *)
Definition service_cmd : IO string :=
  enabled <- is_scx_service_enabled ;;
  if negb enabled then ret "enable --now" else ret "restart".

Definition scx_conf_path : string := "/etc/default/scx".

Definition is_flags_commented : IO bool :=
  scx_conf_content <- utils_read_whole_file scx_conf_path ;;
  ret (contains "#SCX_FLAGS=" scx_conf_content).

Definition get_scx_flags_sed (sched_flags_text : string) (flags_commented : bool)
  : string :=
  if empty sched_flags_text && negb flags_commented then
    "-e 's/SCX_FLAGS=/#SCX_FLAGS=/'"
  else if negb (empty sched_flags_text) && flags_commented then
    "-e " ++ dq ++ "s/.*SCX_FLAGS=.*/SCX_FLAGS='" ++ sched_flags_text ++ "'/" ++ dq
  else if negb (empty sched_flags_text) && negb flags_commented then
    "-e " ++ dq ++ "s/SCX_FLAGS=.*/SCX_FLAGS='" ++ sched_flags_text ++ "'/" ++ dq
  else EmptyString.

Definition sed_cmd (current_selected scx_flags_sed cmd : string) : string :=
  "sed -e 's/SCX_SCHEDULER=.*/SCX_SCHEDULER=" ++ current_selected ++ "/' "
    ++ scx_flags_sed ++ " -i /etc/default/scx && systemctl " ++ cmd ++ " scx".

Definition on_apply (u0 : Ui) : IO Ui :=
  let u := set_disable_button false u0 in
  let u := set_apply_button false u in
  cmd <- service_cmd ;;
  flags_commented <- is_flags_commented ;;
  let sched_flags_text := toStdString (trimmed (schedext_flags_edit u)) in
  let scx_flags_sed := get_scx_flags_sed sched_flags_text flags_commented in
  let current_selected := toStdString (schedext_combo_box u) in
  emit (StartDetached pkexec
          ["/usr/bin/bash"; "-c";
           fromStdString (sed_cmd current_selected scx_flags_sed cmd)]) ;;
  emit (Stdout ("Applying scx " ++ current_selected ++ nl)) ;;
  let u := set_disable_button true u in
  let u := set_apply_button true u in
  ret u.

End SchedExt.

(** ** The kernel window, [src/km-window.cpp] *)

Module KernelManager.
Import Text.

(** Modelled from the spec: the class [Kernel] is declared in
    [kernel.hpp], which is not among the sources.  Of the attributes the
    data model gives a kernel, the raw package name, the version, the
    category and the repository are fixed at construction; the ones the
    package database decides are members of [Libalpm] below. *)
Record Kernel := {
  get_raw : string;
  version : string;
  category : string;
  get_repo : string
}.

(** The package database behind [alpm_handle_t*], with the members of
    [Kernel] that go through it ([kernel.cpp] is not among the sources).
    They are parameters: everything these calls can read or change
    lives in [Handle], and nothing is assumed about what they answer. *)
Class Libalpm (Handle : Type) := {
  is_installed : Kernel -> Handle -> bool;
  is_update_available : Kernel -> Handle -> bool;
  get_installed_db : Kernel -> Handle -> string;
  install : Kernel -> Handle -> bool * Handle;
  remove : Kernel -> Handle -> bool * Handle;
  commit_transaction : Handle -> Handle;
  alpm_last_error : Handle -> string;   (* alpm_strerror(alpm_errno(handle)) *)
  alpm_release : Handle -> Handle
}.

Inductive event :=
| Stderr (msg : string)
| CallInstall (raw : string) (ok : bool)   (* kernel->install() and its result *)
| CallRemove (raw : string) (ok : bool)    (* kernel->remove() and its result *)
| CallCommit.

Inductive CheckState := Unchecked | PartiallyChecked | Checked.

Definition CheckState_eqb (a b : CheckState) : bool :=
  match a, b with
  | Unchecked, Unchecked | PartiallyChecked, PartiallyChecked | Checked, Checked => true
  | _, _ => false
  end.

(** A row of the tree: the check box and the texts of the columns of
    [TreeCol]. *)
Record QTreeWidgetItem := {
  checkState : CheckState;
  PkgName : QString;
  Version : QString;
  Category : QString;
  Displayed : QString;
  Immutable : QString;
  childCount : nat
}.

Definition setCheckState_item (st : CheckState) (it : QTreeWidgetItem) : QTreeWidgetItem :=
  {| checkState := st;
     PkgName := PkgName it;
     Version := Version it;
     Category := Category it;
     Displayed := Displayed it;
     Immutable := Immutable it;
     childCount := childCount it |}.

Inductive Widget := TreeKernels | OtherWidget.

(** Where the worker lambda stands. *)
Inductive Worker :=
| NotStarted      (* [m_worker_th->start()] not called yet *)
| AtWhile         (* about to test the loop condition, line 71 *)
| AtWait          (* inside [m_cv.wait(lock, pred)], line 75 *)
| AtIf            (* about to test the two flags, line 77 *)
| Returned.       (* the lambda has returned *)

(** [QList::removeOne]: the first occurrence goes. *)
Fixpoint removeOne (t : QString) (l : list QString) : list QString :=
  match l with
  | [] => []
  | x :: r => if x =? t then r else x :: removeOne t r
  end.

Fixpoint replace_nth {A} (i : nat) (x : A) (l : list A) : list A :=
  match l, i with
  | [], _ => []
  | _ :: r, 0 => x :: r
  | y :: r, S j => y :: replace_nth j x r
  end.

(** The default member initialisers of [km-window.hpp] and the form's
    initial state of the confirmation button, neither among the
    sources: parameters of the constructor. *)
Record Header := {
  init_running : bool;
  init_thread_running : bool;
  init_ok : bool
}.

Section Window.
Context {Handle : Type} `{Libalpm Handle}.

(** The body of one turn of the loops of [install_packages] and
    [remove_packages]. *)
Definition install_selected (kernels : list Kernel) (selected : string)
    (handle : Handle) : Handle * list event :=
  match find (fun el => get_raw el =? selected) kernels with
  | Some kernel =>
      if negb (is_installed kernel handle) || is_update_available kernel handle then
        let (ok, handle') := install kernel handle in
        if negb ok then
          (handle',
           [CallInstall (get_raw kernel) ok;
            Stderr ("failed to add package to be installed ("
                      ++ alpm_last_error handle' ++ ")" ++ nl)])
        else (handle', [CallInstall (get_raw kernel) ok])
      else (handle, [])
  | None => (handle, [])
  end.

Definition remove_selected (kernels : list Kernel) (selected : string)
    (handle : Handle) : Handle * list event :=
  match find (fun el => get_raw el =? selected) kernels with
  | Some kernel =>
      if is_installed kernel handle then
        let (ok, handle') := remove kernel handle in
        if negb ok then
          (handle',
           [CallRemove (get_raw kernel) ok;
            Stderr ("failed to add package to be removed ("
                      ++ alpm_last_error handle' ++ ")" ++ nl)])
        else (handle', [CallRemove (get_raw kernel) ok])
      else (handle, [])
  | None => (handle, [])
  end.

(** Sequencing of two pieces of code that work on the database. *)
Definition and_then (f g : Handle -> Handle * list event)
  : Handle -> Handle * list event :=
  fun handle =>
    let (handle1, t1) := f handle in
    let (handle2, t2) := g handle1 in
    (handle2, (t1 ++ t2)%list).

(** A range-for over the selected names, threading the database. *)
Fixpoint for_each (body : string -> Handle -> Handle * list event)
    (selected_list : list string) : Handle -> Handle * list event :=
  match selected_list with
  | [] => fun handle => (handle, [])
  | selected :: rest => and_then (body selected) (for_each body rest)
  end.

Definition install_packages (handle : Handle) (kernels : list Kernel)
    (selected_list : list string) : bool * Handle * list event :=
  let (handle', t) := for_each (install_selected kernels) selected_list handle in
  (true, handle', t).

Definition remove_packages (handle : Handle) (kernels : list Kernel)
    (selected_list : list string) : bool * Handle * list event :=
  let (handle', t) := for_each (remove_selected kernels) selected_list handle in
  (true, handle', t).

Record MainWindow := {
  m_running : bool;
  m_thread_running : bool;
  m_cv : nat;                       (* calls of [notify_all] so far *)
  m_worker_th : Worker;
  m_change_list : list QString;
  m_handle : Handle;
  m_kernels : list Kernel;
  treeKernels : list QTreeWidgetItem;
  currentItem : option nat;         (* index of the row, [None] for nullptr *)
  focusWidget : Widget;
  ok : bool;                        (* [m_ui->ok] enabled? *)
  log : list event
}.

Definition set_running (b : bool) (w : MainWindow) : MainWindow :=
  {| m_running := b; m_thread_running := m_thread_running w; m_cv := m_cv w;
     m_worker_th := m_worker_th w; m_change_list := m_change_list w;
     m_handle := m_handle w; m_kernels := m_kernels w;
     treeKernels := treeKernels w; currentItem := currentItem w;
     focusWidget := focusWidget w; ok := ok w; log := log w |}.

Definition set_thread_running (b : bool) (w : MainWindow) : MainWindow :=
  {| m_running := m_running w; m_thread_running := b; m_cv := m_cv w;
     m_worker_th := m_worker_th w; m_change_list := m_change_list w;
     m_handle := m_handle w; m_kernels := m_kernels w;
     treeKernels := treeKernels w; currentItem := currentItem w;
     focusWidget := focusWidget w; ok := ok w; log := log w |}.

Definition notify_all (w : MainWindow) : MainWindow :=
  {| m_running := m_running w; m_thread_running := m_thread_running w;
     m_cv := S (m_cv w);
     m_worker_th := m_worker_th w; m_change_list := m_change_list w;
     m_handle := m_handle w; m_kernels := m_kernels w;
     treeKernels := treeKernels w; currentItem := currentItem w;
     focusWidget := focusWidget w; ok := ok w; log := log w |}.

Definition set_worker (p : Worker) (w : MainWindow) : MainWindow :=
  {| m_running := m_running w; m_thread_running := m_thread_running w; m_cv := m_cv w;
     m_worker_th := p; m_change_list := m_change_list w;
     m_handle := m_handle w; m_kernels := m_kernels w;
     treeKernels := treeKernels w; currentItem := currentItem w;
     focusWidget := focusWidget w; ok := ok w; log := log w |}.

Definition set_change_list (l : list QString) (w : MainWindow) : MainWindow :=
  {| m_running := m_running w; m_thread_running := m_thread_running w; m_cv := m_cv w;
     m_worker_th := m_worker_th w; m_change_list := l;
     m_handle := m_handle w; m_kernels := m_kernels w;
     treeKernels := treeKernels w; currentItem := currentItem w;
     focusWidget := focusWidget w; ok := ok w; log := log w |}.

Definition set_handle (h : Handle) (w : MainWindow) : MainWindow :=
  {| m_running := m_running w; m_thread_running := m_thread_running w; m_cv := m_cv w;
     m_worker_th := m_worker_th w; m_change_list := m_change_list w;
     m_handle := h; m_kernels := m_kernels w;
     treeKernels := treeKernels w; currentItem := currentItem w;
     focusWidget := focusWidget w; ok := ok w; log := log w |}.

Definition set_tree (t : list QTreeWidgetItem) (w : MainWindow) : MainWindow :=
  {| m_running := m_running w; m_thread_running := m_thread_running w; m_cv := m_cv w;
     m_worker_th := m_worker_th w; m_change_list := m_change_list w;
     m_handle := m_handle w; m_kernels := m_kernels w;
     treeKernels := t; currentItem := currentItem w;
     focusWidget := focusWidget w; ok := ok w; log := log w |}.

Definition setCurrentItem (i : option nat) (w : MainWindow) : MainWindow :=
  {| m_running := m_running w; m_thread_running := m_thread_running w; m_cv := m_cv w;
     m_worker_th := m_worker_th w; m_change_list := m_change_list w;
     m_handle := m_handle w; m_kernels := m_kernels w;
     treeKernels := treeKernels w; currentItem := i;
     focusWidget := focusWidget w; ok := ok w; log := log w |}.

Definition setFocus (f : Widget) (w : MainWindow) : MainWindow :=
  {| m_running := m_running w; m_thread_running := m_thread_running w; m_cv := m_cv w;
     m_worker_th := m_worker_th w; m_change_list := m_change_list w;
     m_handle := m_handle w; m_kernels := m_kernels w;
     treeKernels := treeKernels w; currentItem := currentItem w;
     focusWidget := f; ok := ok w; log := log w |}.

Definition ok_setEnabled (b : bool) (w : MainWindow) : MainWindow :=
  {| m_running := m_running w; m_thread_running := m_thread_running w; m_cv := m_cv w;
     m_worker_th := m_worker_th w; m_change_list := m_change_list w;
     m_handle := m_handle w; m_kernels := m_kernels w;
     treeKernels := treeKernels w; currentItem := currentItem w;
     focusWidget := focusWidget w; ok := b; log := log w |}.

Definition add_log (t : list event) (w : MainWindow) : MainWindow :=
  {| m_running := m_running w; m_thread_running := m_thread_running w; m_cv := m_cv w;
     m_worker_th := m_worker_th w; m_change_list := m_change_list w;
     m_handle := m_handle w; m_kernels := m_kernels w;
     treeKernels := treeKernels w; currentItem := currentItem w;
     focusWidget := focusWidget w; ok := ok w; log := (log w ++ t)%list |}.

(** The rows the constructor creates, signals blocked: a kernel
    installed from its own repository starts checked and is marked
    in the hidden column. *)
Definition new_item (handle : Handle) (kernel : Kernel) : QTreeWidgetItem :=
  let widget_item :=
    {| checkState := Unchecked;
       PkgName := fromStdString (get_raw kernel);
       Version := fromStdString (version kernel);
       Category := fromStdString (category kernel);
       Displayed := "true";
       Immutable := EmptyString;
       childCount := 0 |} in
  if is_installed kernel handle then
    let kernel_installed_db := get_installed_db kernel handle in
    if negb (empty kernel_installed_db)
       && negb (kernel_installed_db =? get_repo kernel)
    then widget_item
    else
      {| checkState := Checked;
         PkgName := PkgName widget_item;
         Version := Version widget_item;
         Category := Category widget_item;
         Displayed := Displayed widget_item;
         Immutable := "true";
         childCount := 0 |}
  else widget_item.

Definition MainWindow_new (hdr : Header) (handle : Handle) (kernels : list Kernel)
  : MainWindow :=
  {| m_running := init_running hdr;
     m_thread_running := init_thread_running hdr;
     m_cv := 0;
     m_worker_th := NotStarted;
     m_change_list := [];
     m_handle := handle;
     m_kernels := kernels;
     treeKernels := map (new_item handle) kernels;
     currentItem := None;
     focusWidget := OtherWidget;
     ok := init_ok hdr;
     log := [] |}.

(** [isEmpty] of a [QStringList]. *)
Definition isEmpty (l : list QString) : bool :=
  match l with
  | [] => true
  | _ :: _ => false
  end.

(** Items are passed by pointer: here by their row. *)
Definition buildChangeList (i : nat) (w : MainWindow) : MainWindow :=
  match nth_error (treeKernels w) i with
  | None => w
  | Some item =>
      let item_text := PkgName item in
      let immutable := Immutable item in
      if (immutable =? "true") && CheckState_eqb (checkState item) Unchecked then
        set_change_list (m_change_list w ++ [item_text])%list (ok_setEnabled true w)
      else
        let w :=
          if CheckState_eqb (checkState item) Checked then
            set_change_list (m_change_list w ++ [item_text])%list (ok_setEnabled true w)
          else set_change_list (removeOne item_text (m_change_list w)) w in
        if isEmpty (m_change_list w) then ok_setEnabled false w else w
  end.

Definition item_changed (i : nat) (w : MainWindow) : MainWindow :=
  match nth_error (treeKernels w) i with
  | None => w
  | Some item =>
      let w :=
        if CheckState_eqb (checkState item) Checked
        then setCurrentItem (Some i) w else w in
      buildChangeList i w
  end.

(** [QTreeWidgetItem::setCheckState]: the tree emits [itemChanged],
    connected to [item_changed], when the value really changes. *)
Definition setCheckState (i : nat) (st : CheckState) (w : MainWindow) : MainWindow :=
  match nth_error (treeKernels w) i with
  | None => w
  | Some item =>
      if CheckState_eqb (checkState item) st then w
      else
        item_changed i
          (set_tree (replace_nth i (setCheckState_item st item) (treeKernels w)) w)
  end.

Definition checkUncheckItem (w : MainWindow) : MainWindow :=
  match focusWidget w with
  | OtherWidget => w
  | TreeKernels =>
      match currentItem w with
      | None => w
      | Some i =>
          match nth_error (treeKernels w) i with
          | None => w
          | Some item =>
              if (0 <? childCount item)%nat then w
              else
                let new_state :=
                  if CheckState_eqb (checkState item) Checked
                  then Unchecked else Checked in
                setCheckState i new_state w
          end
      end
  end.

(** The two slots connected to [itemDoubleClicked], in connection
    order; a double click lands on a row of the focused tree. *)
Definition itemDoubleClicked (i : nat) (w : MainWindow) : MainWindow :=
  checkUncheckItem (setCurrentItem (Some i) (setFocus TreeKernels w)).

(** A check or uncheck of row [i] by the user. *)
Definition toggle (w : MainWindow) (i : nat) : MainWindow :=
  itemDoubleClicked i w.

Definition toggles (w : MainWindow) (rows : list nat) : MainWindow :=
  fold_left toggle rows w.

Definition closeEvent (w : MainWindow) : MainWindow :=
  let w := set_running true w in
  let w := set_thread_running false w in
  let w := notify_all w in
  set_handle (alpm_release (m_handle w)) w.

Definition on_execute (w : MainWindow) : MainWindow :=
  if m_running w then w
  else
    let w := set_running true w in
    let w := set_thread_running true w in
    let w := notify_all w in
    match m_worker_th w with
    | NotStarted => set_worker AtWhile w
    | _ => w
    end.

(** Lines 78 to 90: what the worker does once both flags hold. *)
Definition transaction (w : MainWindow) : MainWindow :=
  let w := ok_setEnabled false w in
  let change_list := map toStdString (m_change_list w) in
  let '(_, h1, t1) := install_packages (m_handle w) (m_kernels w) change_list in
  let '(_, h2, t2) := remove_packages h1 (m_kernels w) change_list in
  let h3 := commit_transaction h2 in
  let w := set_handle h3 (add_log (t1 ++ t2 ++ [CallCommit])%list w) in
  let w := set_running false w in
  ok_setEnabled true w.

(** One move of the worker thread.  Inside [wait] a move is a wake-up
    that evaluates the predicate; the thread stays there while the
    predicate is false. *)
Definition worker_step (w : MainWindow) : MainWindow :=
  match m_worker_th w with
  | NotStarted => w
  | AtWhile =>
      if m_thread_running w
      then set_worker AtWait (add_log [Stderr ("Waiting... " ++ nl)] w)
      else set_worker Returned w
  | AtWait => if m_running w then set_worker AtIf w else w
  | AtIf =>
      if m_running w && m_thread_running w
      then set_worker AtWhile (transaction w)
      else set_worker AtWhile w
  | Returned => w
  end.

Fixpoint worker_run (n : nat) (w : MainWindow) : MainWindow :=
  match n with
  | 0 => w
  | S k => worker_run k (worker_step w)
  end.

End Window.

Arguments MainWindow Handle : clear implicits.

End KernelManager.

(** ** Vocabulary of the statements *)

Module Props.
Import Text.

(** A read through [read_kernel_file] fails when the stream does not
    open or [std::getline] extracts nothing. *)
Definition read_fails (env : SchedExt.Env) (path : string) : bool :=
  match SchedExt.file_system env path with
  | SchedExt.Missing | SchedExt.Unreadable => true
  | SchedExt.Content text =>
      match getline text with
      | None => true
      | Some _ => false
      end
  end.

Definition is_StartDetached (e : SchedExt.event) : bool :=
  match e with
  | SchedExt.StartDetached _ _ => true
  | _ => false
  end.

(** The process [on_apply] starts, for a given flags fragment. *)
Definition launched (env : SchedExt.Env) (u : SchedExt.Ui) (fragment : string)
  : SchedExt.event :=
  SchedExt.StartDetached SchedExt.pkexec
    ["/usr/bin/bash"; "-c";
     SchedExt.sed_cmd (toStdString (SchedExt.schedext_combo_box u)) fragment
       (if SchedExt.exec env "systemctl is-enabled scx" =? "enabled"
        then "restart" else "enable --now")].

Import KernelManager.

Definition is_checked (it : QTreeWidgetItem) : bool :=
  CheckState_eqb (checkState it) Checked.

Definition is_immutable (it : QTreeWidgetItem) : bool :=
  Immutable it =? "true".

(** The names of the rows that are checked and not immutable. *)
Definition checked_mutable_rows (tree : list QTreeWidgetItem) : list QString :=
  map PkgName (filter (fun it => is_checked it && negb (is_immutable it)) tree).

(** A row after a check or uncheck: [checkUncheckItem] unchecks a
    checked box and checks any other. *)
Definition toggled (it : QTreeWidgetItem) : QTreeWidgetItem :=
  setCheckState_item (if is_checked it then Unchecked else Checked) it.

Definition occurrences (l : list QString) (name : QString) : nat :=
  count_occ string_dec l name.

(** What links the tree and the change list while the user toggles. *)
Record change_list_inv (tree : list QTreeWidgetItem) (l : list QString) : Prop := {
  names_distinct : NoDup (map PkgName tree);
  mutable_rows : forall j it,
    nth_error tree j = Some it -> is_immutable it = false ->
    occurrences l (PkgName it) = if is_checked it then 1 else 0;
  immutable_rows : forall j it,
    nth_error tree j = Some it -> is_immutable it = true -> is_checked it = false ->
    1 <= occurrences l (PkgName it);
  listed_rows : forall name,
    1 <= occurrences l name ->
    exists j it, nth_error tree j = Some it /\ PkgName it = name
                 /\ (is_immutable it = true \/ is_checked it = true)
}.

Definition is_failure (e : event) : bool :=
  match e with
  | CallInstall _ false | CallRemove _ false => true
  | _ => false
  end.

Definition is_Stderr (e : event) : bool :=
  match e with
  | Stderr _ => true
  | _ => false
  end.

Definition count (p : event -> bool) (t : list event) : nat :=
  length (filter p t).

(** The database and the trace a batch leaves, without its result. *)
Definition outcome {Handle} (r : bool * Handle * list event) : Handle * list event :=
  (snd (fst r), snd r).



End Props.

(** ** Concrete worlds to run the windows in *)

Module Sample.
Import Text SchedExt.

Definition env_of (state ops : file) (is_enabled is_active conf : string) : Env :=
  {| file_system := fun path =>
       if path =? state_path then state
       else if path =? ops_path then ops
       else Missing;
     exec := fun cmd =>
       if cmd =? "systemctl is-enabled scx" then is_enabled
       else if cmd =? "systemctl is-active scx" then is_active
       else EmptyString;
     read_whole_file := fun path =>
       if path =? scx_conf_path then conf else EmptyString |}.

(** A kernel without sched_ext: no state file. *)
Definition env_no_sched_ext : Env :=
  env_of Missing Missing "disabled" "inactive" EmptyString.

(** sched_ext present, no scheduler loaded, service off. *)
Definition env_disabled : Env :=
  env_of (Content ("disabled" ++ nl)) (Content EmptyString)
    "disabled" "inactive"
    ("SCX_SCHEDULER=scx_rusty" ++ nl ++ "SCX_FLAGS='-v'" ++ nl).

(** The state says enabled and the ops file gives nothing. *)
Definition env_enabled_no_ops : Env :=
  env_of (Content ("enabled" ++ nl)) (Content EmptyString)
    "enabled" "active"
    ("SCX_SCHEDULER=scx_rusty" ++ nl ++ "#SCX_FLAGS=" ++ nl).

Definition ui_of (flags : QString) (sched : QString) : Ui :=
  {| disable_button := true;
     apply_button := true;
     schedext_flags_edit := flags;
     schedext_combo_box := sched;
     current_sched_label := EmptyString |}.

Import KernelManager.

(** A small package database standing for libalpm. *)
Record Db := {
  local_db : list string;       (* names of the installed packages *)
  local_repo : string;          (* the repository they came from *)
  outdated : list string;       (* installed, with a newer version in the sync db *)
  refused : list string;        (* names the library refuses in a transaction *)
  to_add : list string;
  to_remove : list string;
  released : bool
}.

Definition mem (n : string) (l : list string) : bool := existsb (String.eqb n) l.

Definition db_install (k : Kernel) (db : Db) : bool * Db :=
  if mem (get_raw k) (refused db) then (false, db)
  else
    (true,
     {| local_db := local_db db; local_repo := local_repo db;
        outdated := outdated db; refused := refused db;
        to_add := (to_add db ++ [get_raw k])%list; to_remove := to_remove db;
        released := released db |}).

Definition db_remove (k : Kernel) (db : Db) : bool * Db :=
  if mem (get_raw k) (refused db) then (false, db)
  else
    (true,
     {| local_db := local_db db; local_repo := local_repo db;
        outdated := outdated db; refused := refused db;
        to_add := to_add db; to_remove := (to_remove db ++ [get_raw k])%list;
        released := released db |}).

Definition db_commit (db : Db) : Db :=
  {| local_db :=
       filter (fun n => negb (mem n (to_remove db))) (local_db db ++ to_add db)%list;
     local_repo := local_repo db;
     outdated := filter (fun n => negb (mem n (to_add db))) (outdated db);
     refused := refused db;
     to_add := []; to_remove := [];
     released := released db |}.

Definition db_release (db : Db) : Db :=
  {| local_db := local_db db; local_repo := local_repo db;
     outdated := outdated db; refused := refused db;
     to_add := to_add db; to_remove := to_remove db;
     released := true |}.

#[export] Instance Db_alpm : Libalpm Db :=
  {| is_installed := fun k db => mem (get_raw k) (local_db db);
     is_update_available := fun k db => mem (get_raw k) (outdated db);
     get_installed_db := fun _ db => local_repo db;
     install := db_install;
     remove := db_remove;
     commit_transaction := db_commit;
     alpm_last_error := fun _ => "operation failed";
     alpm_release := db_release |}.

Definition linux_cachyos : Kernel :=
  {| get_raw := "linux-cachyos"; version := "6.9.3-2";
     category := "bore"; get_repo := "cachyos" |}.

Definition linux_cachyos_lts : Kernel :=
  {| get_raw := "linux-cachyos-lts"; version := "6.6.32-1";
     category := "lts"; get_repo := "cachyos" |}.

Definition linux_cachyos_rt : Kernel :=
  {| get_raw := "linux-cachyos-rt"; version := "6.9.3-1";
     category := "rt"; get_repo := "cachyos" |}.

Definition kernels0 : list Kernel :=
  [linux_cachyos; linux_cachyos_lts; linux_cachyos_rt].

(** [linux-cachyos] is installed; the library refuses the lts kernel. *)
Definition db0 : Db :=
  {| local_db := ["linux-cachyos"]; local_repo := "cachyos";
     outdated := []; refused := ["linux-cachyos-lts"];
     to_add := []; to_remove := []; released := false |}.

Definition header0 : Header :=
  {| init_running := false; init_thread_running := true; init_ok := false |}.

Definition window0 : MainWindow Db := MainWindow_new header0 db0 kernels0.

(** The user has checked the rt kernel and confirmed: the worker has
    been started and woken and stands before its test of the flags. *)
Definition window_confirmed : MainWindow Db :=
  worker_run 2 (on_execute (toggles window0 [2])).

(** The transaction is over and the worker is parked in [wait]. *)
Definition window_parked : MainWindow Db :=
  worker_run 2 (worker_step window_confirmed).

End Sample.

(** ** Vocabulary of the further statements *)

Module Behaviour.
Import Text.

(** A text without a line break. *)
Fixpoint no_newline (s : string) : bool :=
  match s with
  | EmptyString => true
  | String c r => negb (Ascii.eqb c "010"%char) && no_newline r
  end.

Definition all_spaces (l : list ascii) : bool := forallb isSpace l.

(** A text that neither starts nor ends with white space. *)
Definition no_outer_space (l : list ascii) : bool :=
  match l with
  | [] => true
  | c :: _ => negb (isSpace c)
  end
  && match rev l with
     | [] => true
     | c :: _ => negb (isSpace c)
     end.

Definition is_OpenFile (e : SchedExt.event) : bool :=
  match e with
  | SchedExt.OpenFile _ => true
  | _ => false
  end.

Definition is_Exec (e : SchedExt.event) : bool :=
  match e with
  | SchedExt.Exec _ => true
  | _ => false
  end.

(** The events of a read: the open and the complaint. *)
Definition is_file_event (e : SchedExt.event) : bool :=
  match e with
  | SchedExt.OpenFile _ | SchedExt.Stderr _ => true
  | _ => false
  end.

Definition set_flags_edit (t : QString) (u : SchedExt.Ui) : SchedExt.Ui :=
  {| SchedExt.disable_button := SchedExt.disable_button u;
     SchedExt.apply_button := SchedExt.apply_button u;
     SchedExt.schedext_flags_edit := t;
     SchedExt.schedext_combo_box := SchedExt.schedext_combo_box u;
     SchedExt.current_sched_label := SchedExt.current_sched_label u |}.

(** The state file holds a line and more; the service is enabled. *)
Definition env_two_lines : SchedExt.Env :=
  Sample.env_of (SchedExt.Content ("enabled" ++ nl ++ "ignored" ++ nl))
    (SchedExt.Content ("rusty_1.0.2" ++ nl)) "enabled" "active"
    ("# example: #SCX_FLAGS='-k'" ++ nl ++ "SCX_SCHEDULER=scx_rusty" ++ nl
       ++ "SCX_FLAGS='-v'" ++ nl).

Import KernelManager.




(** The line the worker prints before it waits. *)
Definition waiting_line : event := Stderr ("Waiting... " ++ nl).

(** The points inside lines 78 to 90 of the worker lambda, one before
    each statement and one before each turn of the two loops it calls,
    with the local [change_list] once it is taken and the names the loop
    has yet to visit. *)
Inductive BodyPoint :=
| AtDisable                                      (* before line 78 *)
| AtSnapshot                                     (* before lines 80 to 83 *)
| AtInstall (change_list todo : list string)     (* in [install_packages], line 85 *)
| AtRemove (change_list todo : list string)      (* in [remove_packages], line 86 *)
| AtCommit                                       (* before line 87 *)
| AtClear                                        (* before line 89 *)
| AtEnable.                                      (* before line 90 *)

Section Backend.
Context {Handle : Type} `{Libalpm Handle}.

(** A selected name [install_packages] passes over: no such kernel, or
    one that is installed and has no update. *)
Definition nothing_to_install (kernels : list Kernel) (handle : Handle)
    (selected : string) : bool :=
  match find (fun el => get_raw el =? selected) kernels with
  | None => true
  | Some kernel =>
      is_installed kernel handle && negb (is_update_available kernel handle)
  end.

(** A selected name [remove_packages] passes over: no such kernel, or
    one that is not installed. *)
Definition nothing_to_remove (kernels : list Kernel) (handle : Handle)
    (selected : string) : bool :=
  match find (fun el => get_raw el =? selected) kernels with
  | None => true
  | Some kernel => negb (is_installed kernel handle)
  end.

(** The confirmation button is enabled exactly when the change list
    holds something. *)
Definition ok_matches (w : MainWindow Handle) : bool :=
  Bool.eqb (ok w) (negb (isEmpty (m_change_list w))).

(** Lines 78 to 90 one statement at a time: the window after the move
    and the point reached, [None] once the body is left.  The members
    are read when the statement runs, so that a store or a release by
    the other thread between two moves is seen by the next. *)
Definition body_step (p : BodyPoint) (w : MainWindow Handle)
  : MainWindow Handle * option BodyPoint :=
  match p with
  | AtDisable => (ok_setEnabled false w, Some AtSnapshot)
  | AtSnapshot =>
      let change_list := map toStdString (m_change_list w) in
      (w, Some (AtInstall change_list change_list))
  | AtInstall change_list [] => (w, Some (AtRemove change_list change_list))
  | AtInstall change_list (selected :: todo) =>
      let (handle', t) := install_selected (m_kernels w) selected (m_handle w) in
      (set_handle handle' (add_log t w), Some (AtInstall change_list todo))
  | AtRemove change_list [] => (w, Some AtCommit)
  | AtRemove change_list (selected :: todo) =>
      let (handle', t) := remove_selected (m_kernels w) selected (m_handle w) in
      (set_handle handle' (add_log t w), Some (AtRemove change_list todo))
  | AtCommit =>
      (set_handle (commit_transaction (m_handle w)) (add_log [CallCommit] w),
       Some AtClear)
  | AtClear => (set_running false w, Some AtEnable)
  | AtEnable => (ok_setEnabled true w, None)
  end.

Fixpoint body_run (fuel : nat) (p : BodyPoint) (w : MainWindow Handle)
  : MainWindow Handle * option BodyPoint :=
  match fuel with
  | 0 => (w, Some p)
  | S k =>
      match body_step p w with
      | (w', None) => (w', None)
      | (w', Some p') => body_run k p' w'
      end
  end.

(** The moves from a point to the end of the body. *)
Definition moves_left (p : BodyPoint) (w : MainWindow Handle) : nat :=
  match p with
  | AtDisable => 2 * length (m_change_list w) + 7
  | AtSnapshot => 2 * length (m_change_list w) + 6
  | AtInstall change_list todo => length todo + length change_list + 5
  | AtRemove _ todo => length todo + 4
  | AtCommit => 3
  | AtClear => 2
  | AtEnable => 1
  end.

(** The end of the body from the commit on, after calls that left the
    database [handle] and the trace [t]. *)
Definition committed (handle : Handle) (t : list event) (w : MainWindow Handle)
  : MainWindow Handle :=
  ok_setEnabled true
    (set_running false
       (set_handle (commit_transaction handle) (add_log (t ++ [CallCommit])%list w))).

(** What is left of the body from a point, told by the batches. *)
Definition rest_of_body (p : BodyPoint) (w : MainWindow Handle) : MainWindow Handle :=
  match p with
  | AtDisable | AtSnapshot => transaction w
  | AtInstall change_list todo =>
      let ri := for_each (install_selected (m_kernels w)) todo (m_handle w) in
      let rr := for_each (remove_selected (m_kernels w)) change_list (fst ri) in
      committed (fst rr) (snd ri ++ snd rr)%list w
  | AtRemove _ todo =>
      let rr := for_each (remove_selected (m_kernels w)) todo (m_handle w) in
      committed (fst rr) (snd rr) w
  | AtCommit => committed (m_handle w) [] w
  | AtClear => ok_setEnabled true (set_running false w)
  | AtEnable => ok_setEnabled true w
  end.

End Backend.

(** The user has confirmed the rt kernel and the worker has not moved
    yet. *)
Definition window_pending : MainWindow Sample.Db :=
  on_execute (toggles Sample.window0 [2]).

(** The row of the rt kernel as the constructor makes it. *)
Definition row_rt : QTreeWidgetItem :=
  @new_item Sample.Db Sample.Db_alpm Sample.db0 Sample.linux_cachyos_rt.

End Behaviour.

(** ** Reading the scheduler state, disabling and applying *)

Module SchedExtFacts.
Import Text SchedExt Props.

Lemma value_bind {A B} (m : IO A) (k : A -> IO B) env :
  value (bind m k env) = value (k (value (m env)) env).
Proof.
  unfold bind, value. destruct (m env) as [a t1]. simpl.
  destruct (k a env); reflexivity.
Qed.

Lemma trace_bind {A B} (m : IO A) (k : A -> IO B) env :
  trace (bind m k env) = (trace (m env) ++ trace (k (value (m env)) env))%list.
Proof.
  unfold bind, value, trace. destruct (m env) as [a t1]. simpl.
  destruct (k a env); reflexivity.
Qed.

(** What a read returns and what it leaves in the trace, by the state
    of the file. *)
Lemma read_kernel_file_value env path :
  value (read_kernel_file path env) =
    match file_system env path with
    | Content text =>
        match getline text with
        | Some line => line
        | None => EmptyString
        end
    | _ => EmptyString
    end.
Proof.
  unfold read_kernel_file. rewrite value_bind. unfold ifstream at 1. simpl.
  destruct (file_system env path) as [| | text]; try reflexivity.
  destruct (getline text); reflexivity.
Qed.

Lemma read_fails_value env path :
  read_fails env path = true -> value (read_kernel_file path env) = EmptyString.
Proof.
  rewrite read_kernel_file_value. unfold read_fails.
  destruct (file_system env path) as [| | text]; try reflexivity.
  destruct (getline text); [discriminate | reflexivity].
Qed.

Lemma read_kernel_file_trace env path e :
  In e (trace (read_kernel_file path env)) ->
  e = OpenFile path \/ exists msg, e = Stderr msg.
Proof.
  unfold read_kernel_file. rewrite trace_bind. unfold ifstream at 1 2. simpl.
  intros [<- | He]; [now left |].
  right.
  destruct (file_system env path) as [| | text]; simpl in He.
  - contradiction.
  - destruct He as [<- | []]. eauto.
  - destruct (getline text); simpl in He.
    + contradiction.
    + destruct He as [<- | []]. eauto.
Qed.

Lemma get_current_scheduler_not_enabled env :
  value (read_kernel_file state_path env) <> "enabled" ->
  get_current_scheduler env =
    (value (read_kernel_file state_path env),
     trace (read_kernel_file state_path env)).
Proof.
  intros Hne. unfold get_current_scheduler, bind, value, trace in *.
  destruct (read_kernel_file state_path env) as [st t]. simpl in *.
  destruct (String.eqb_spec st "enabled") as [-> | _]; [now elim Hne |].
  simpl. now rewrite app_nil_r.
Qed.

Lemma get_current_scheduler_enabled env :
  value (read_kernel_file state_path env) = "enabled" ->
  value (get_current_scheduler env) =
    if empty (value (read_kernel_file ops_path env)) then "unknown"
    else value (read_kernel_file ops_path env).
Proof.
  intros He. unfold get_current_scheduler. rewrite value_bind, He. simpl.
  rewrite value_bind.
  destruct (empty (value (read_kernel_file ops_path env))); reflexivity.
Qed.

(** C7: whatever the state file gives, other than exactly "enabled"
    (the empty string of a failed read included), is returned as it
    is, and the ops file is not opened: the run leaves the trace of
    the single read of the state file. *)
Theorem get_current_scheduler_raw_state (env : Env) :
  value (read_kernel_file state_path env) <> "enabled" ->
  value (get_current_scheduler env) = value (read_kernel_file state_path env)
  /\ trace (get_current_scheduler env) = trace (read_kernel_file state_path env)
  /\ ~ In (OpenFile ops_path) (trace (get_current_scheduler env)).
Proof.
  intros Hne. rewrite (get_current_scheduler_not_enabled env Hne).
  unfold value at 1, trace at 1 3. simpl. repeat split.
  intros Hin. apply read_kernel_file_trace in Hin.
  destruct Hin as [Heq | [msg Heq]]; discriminate Heq.
Qed.

(** C8: state "enabled" and an empty read of the ops file give the
    sentinel. *)
Theorem get_current_scheduler_unknown (env : Env) :
  value (read_kernel_file state_path env) = "enabled" ->
  value (read_kernel_file ops_path env) = EmptyString ->
  value (get_current_scheduler env) = "unknown".
Proof.
  intros He Ho. rewrite (get_current_scheduler_enabled env He), Ho. reflexivity.
Qed.

(** C3, as the code has it: a failed read of the state file makes
    [get_current_scheduler] return the empty string it read (it is
    not "enabled"); with the state "enabled", a failed read of the ops
    file makes it return "unknown". *)
Theorem get_current_scheduler_read_failures (env : Env) :
  (read_fails env state_path = true ->
   value (get_current_scheduler env) = EmptyString)
  /\ (value (read_kernel_file state_path env) = "enabled" ->
      read_fails env ops_path = true ->
      value (get_current_scheduler env) = "unknown").
Proof.
  split.
  - intros Hf. pose proof (read_fails_value env state_path Hf) as Hv.
    rewrite get_current_scheduler_not_enabled.
    + exact Hv.
    + rewrite Hv. discriminate.
  - intros He Hf. rewrite (get_current_scheduler_enabled env He).
    now rewrite (read_fails_value env ops_path Hf).
Qed.

(** C3, as stated, fails where the state file cannot be opened: the
    read fails and the result is the empty string, not "unknown". *)
Lemma get_current_scheduler_state_failure_not_unknown :
  read_fails Sample.env_no_sched_ext state_path = true
  /\ value (get_current_scheduler Sample.env_no_sched_ext) = EmptyString
  /\ value (get_current_scheduler Sample.env_no_sched_ext) <> "unknown".
Proof.
  vm_compute. repeat split. discriminate.
Qed.

Lemma get_current_scheduler_raw_state_witness :
  value (read_kernel_file state_path Sample.env_disabled) <> "enabled"
  /\ value (get_current_scheduler Sample.env_disabled) = "disabled"
  /\ trace (get_current_scheduler Sample.env_disabled) = [OpenFile state_path].
Proof.
  assert (Hne : value (read_kernel_file state_path Sample.env_disabled) <> "enabled")
    by (vm_compute; discriminate).
  split; [exact Hne |].
  destruct (get_current_scheduler_raw_state Sample.env_disabled Hne) as (Hv & Ht & _).
  rewrite Hv, Ht. split; reflexivity.
Defined.

Lemma get_current_scheduler_unknown_witness :
  value (get_current_scheduler Sample.env_enabled_no_ops) = "unknown".
Proof.
  apply (get_current_scheduler_unknown Sample.env_enabled_no_ops); reflexivity.
Defined.

Lemma get_current_scheduler_read_failures_witness :
  value (get_current_scheduler Sample.env_no_sched_ext) = EmptyString
  /\ value (get_current_scheduler Sample.env_enabled_no_ops) = "unknown".
Proof.
  split.
  - apply (proj1 (get_current_scheduler_read_failures Sample.env_no_sched_ext)).
    reflexivity.
  - apply (proj2 (get_current_scheduler_read_failures Sample.env_enabled_no_ops));
      reflexivity.
Defined.

(** *** [on_disable] *)

Lemma on_disable_buttons env u :
  disable_button (value (on_disable u env)) = true
  /\ apply_button (value (on_disable u env)) = true.
Proof.
  unfold on_disable. rewrite value_bind. simpl. split; reflexivity.
Qed.

Lemma on_disable_trace env u :
  trace (on_disable u env) =
    if exec env "systemctl is-enabled scx" =? "enabled" then
      [Exec "systemctl is-enabled scx";
       StartDetached pkexec ["/usr/bin/systemctl"; "disable"; "--now"; "scx"];
       Stdout ("Disabling scx" ++ nl)]
    else if exec env "systemctl is-active scx" =? "active" then
      [Exec "systemctl is-enabled scx"; Exec "systemctl is-active scx";
       StartDetached pkexec ["/usr/bin/systemctl"; "stop"; "scx"];
       Stdout ("Stoping scx" ++ nl)]
    else [Exec "systemctl is-enabled scx"; Exec "systemctl is-active scx"].
Proof.
  unfold on_disable, is_scx_service_enabled, is_scx_service_active,
    utils_exec, bind, ret, emit, trace.
  simpl.
  destruct (exec env "systemctl is-enabled scx" =? "enabled"); [reflexivity |].
  simpl.
  destruct (exec env "systemctl is-active scx" =? "active"); reflexivity.
Qed.

(** C10: [on_disable] leaves both buttons enabled whatever the
    service reports; and when the service is neither enabled nor
    active no process is started, neither the disable nor the stop
    command: the slot only asks systemctl twice for the status through
    [utils::exec]. *)
Theorem on_disable_idle (env : Env) (u : Ui) :
  (disable_button (value (on_disable u env)) = true
   /\ apply_button (value (on_disable u env)) = true)
  /\ (exec env "systemctl is-enabled scx" <> "enabled" ->
      exec env "systemctl is-active scx" <> "active" ->
      filter is_StartDetached (trace (on_disable u env)) = []
      /\ trace (on_disable u env) =
           [Exec "systemctl is-enabled scx"; Exec "systemctl is-active scx"]).
Proof.
  split; [apply on_disable_buttons |].
  intros He Ha. rewrite on_disable_trace.
  destruct (String.eqb_spec (exec env "systemctl is-enabled scx") "enabled");
    [contradiction |].
  destruct (String.eqb_spec (exec env "systemctl is-active scx") "active");
    [contradiction |].
  split; reflexivity.
Qed.

Lemma on_disable_idle_witness :
  exec Sample.env_disabled "systemctl is-enabled scx" <> "enabled"
  /\ exec Sample.env_disabled "systemctl is-active scx" <> "active"
  /\ filter is_StartDetached
       (trace (on_disable (Sample.ui_of EmptyString "scx_rusty") Sample.env_disabled)) = [].
Proof.
  assert (He : exec Sample.env_disabled "systemctl is-enabled scx" <> "enabled")
    by (vm_compute; discriminate).
  assert (Ha : exec Sample.env_disabled "systemctl is-active scx" <> "active")
    by (vm_compute; discriminate).
  split; [exact He | split; [exact Ha |]].
  exact (proj1 (proj2 (on_disable_idle Sample.env_disabled
                         (Sample.ui_of EmptyString "scx_rusty")) He Ha)).
Defined.

(** *** [on_apply] *)

Lemma on_apply_trace env u :
  trace (on_apply u env) =
    [Exec "systemctl is-enabled scx";
     ReadWholeFile scx_conf_path;
     launched env u
       (get_scx_flags_sed (toStdString (trimmed (schedext_flags_edit u)))
          (contains "#SCX_FLAGS=" (read_whole_file env scx_conf_path)));
     Stdout ("Applying scx " ++ toStdString (schedext_combo_box u) ++ nl)].
Proof.
  unfold on_apply, service_cmd, is_flags_commented, is_scx_service_enabled,
    utils_exec, utils_read_whole_file, launched, bind, ret, emit, trace,
    fromStdString.
  simpl.
  destruct (exec env "systemctl is-enabled scx" =? "enabled"); reflexivity.
Qed.

Lemma get_scx_flags_sed_comment_out :
  get_scx_flags_sed EmptyString false = "-e 's/SCX_FLAGS=/#SCX_FLAGS=/'".
Proof. reflexivity. Qed.

Lemma get_scx_flags_sed_set text :
  text <> EmptyString ->
  get_scx_flags_sed text true =
    "-e " ++ dq ++ "s/.*SCX_FLAGS=.*/SCX_FLAGS='" ++ text ++ "'/" ++ dq.
Proof.
  intros Hne. destruct text as [| c r]; [now elim Hne |]. reflexivity.
Qed.

(** C5: with an empty trimmed flags text and a configuration whose
    flags line is not commented, the fragment is the substitution that
    comments the line out; with a non-empty text and a commented line
    it is the substitution of the whole line by the uncommented
    assignment of the quoted text.  In both cases that fragment is the
    one in the command [on_apply] starts, and it starts no other. *)
Theorem on_apply_flags_fragment (env : Env) (u : Ui) :
  let text := toStdString (trimmed (schedext_flags_edit u)) in
  let commented := contains "#SCX_FLAGS=" (read_whole_file env scx_conf_path) in
  (text = EmptyString -> commented = false ->
   get_scx_flags_sed text commented = "-e 's/SCX_FLAGS=/#SCX_FLAGS=/'"
   /\ filter is_StartDetached (trace (on_apply u env)) =
        [launched env u "-e 's/SCX_FLAGS=/#SCX_FLAGS=/'"])
  /\ (text <> EmptyString -> commented = true ->
      get_scx_flags_sed text commented =
        "-e " ++ dq ++ "s/.*SCX_FLAGS=.*/SCX_FLAGS='" ++ text ++ "'/" ++ dq
      /\ filter is_StartDetached (trace (on_apply u env)) =
           [launched env u
              ("-e " ++ dq ++ "s/.*SCX_FLAGS=.*/SCX_FLAGS='" ++ text ++ "'/" ++ dq)]).
Proof.
  intros text commented. rewrite on_apply_trace. fold text commented.
  split.
  - intros -> ->. split; reflexivity.
  - intros Hne ->. rewrite (get_scx_flags_sed_set text Hne). split; reflexivity.
Qed.

Lemma on_apply_flags_fragment_witness :
  get_scx_flags_sed
    (toStdString (trimmed (schedext_flags_edit (Sample.ui_of "  " "scx_rusty"))))
    (contains "#SCX_FLAGS=" (read_whole_file Sample.env_disabled scx_conf_path))
    = "-e 's/SCX_FLAGS=/#SCX_FLAGS=/'"
  /\ get_scx_flags_sed
       (toStdString (trimmed (schedext_flags_edit (Sample.ui_of " -v  " "scx_lavd"))))
       (contains "#SCX_FLAGS=" (read_whole_file Sample.env_enabled_no_ops scx_conf_path))
       = "-e " ++ dq ++ "s/.*SCX_FLAGS=.*/SCX_FLAGS='-v'/" ++ dq.
Proof.
  split.
  - apply (proj1 (on_apply_flags_fragment Sample.env_disabled
                    (Sample.ui_of "  " "scx_rusty"))); reflexivity.
  - apply (proj2 (on_apply_flags_fragment Sample.env_enabled_no_ops
                    (Sample.ui_of " -v  " "scx_lavd")));
      [vm_compute; discriminate | reflexivity].
Defined.

End SchedExtFacts.

(** ** The kernel window: batches, the worker, the change list *)

Module KernelManagerFacts.
Import Text KernelManager Props.

Section Facts.
Context {Handle : Type} `{Libalpm Handle}.

(** *** Batches *)

Lemma and_then_assoc (f g k : Handle -> Handle * list event) handle :
  and_then (and_then f g) k handle = and_then f (and_then g k) handle.
Proof.
  unfold and_then. destruct (f handle) as [h1 t1].
  destruct (g h1) as [h2 t2]. destruct (k h2) as [h3 t3].
  now rewrite app_assoc.
Qed.

Lemma and_then_ext (f g g' : Handle -> Handle * list event) handle :
  (forall h, g h = g' h) -> and_then f g handle = and_then f g' handle.
Proof.
  intros Hg. unfold and_then. destruct (f handle) as [h1 t1]. now rewrite Hg.
Qed.

Lemma for_each_app (body : string -> Handle -> Handle * list event)
    (pre post : list string) handle :
  for_each body (pre ++ post) handle =
    and_then (for_each body pre) (for_each body post) handle.
Proof.
  revert handle. induction pre as [| s pre IH]; intros handle; simpl.
  - unfold and_then. simpl. now destruct (for_each body post handle).
  - rewrite and_then_assoc. apply and_then_ext, IH.
Qed.

Lemma count_app p (t1 t2 : list event) :
  count p (t1 ++ t2) = count p t1 + count p t2.
Proof. unfold count. now rewrite filter_app, length_app. Qed.

Lemma install_selected_logged kernels selected handle :
  count is_Stderr (snd (install_selected kernels selected handle)) =
    count is_failure (snd (install_selected kernels selected handle)).
Proof.
  unfold install_selected.
  destruct (find _ kernels) as [kernel |]; [| reflexivity].
  destruct (negb (is_installed kernel handle) || is_update_available kernel handle);
    [| reflexivity].
  destruct (install kernel handle) as [[|] h']; reflexivity.
Qed.

Lemma remove_selected_logged kernels selected handle :
  count is_Stderr (snd (remove_selected kernels selected handle)) =
    count is_failure (snd (remove_selected kernels selected handle)).
Proof.
  unfold remove_selected.
  destruct (find _ kernels) as [kernel |]; [| reflexivity].
  destruct (is_installed kernel handle); [| reflexivity].
  destruct (remove kernel handle) as [[|] h']; reflexivity.
Qed.

Lemma for_each_logged (body : string -> Handle -> Handle * list event) :
  (forall s h, count is_Stderr (snd (body s h)) = count is_failure (snd (body s h))) ->
  forall selected_list handle,
    count is_Stderr (snd (for_each body selected_list handle)) =
      count is_failure (snd (for_each body selected_list handle)).
Proof.
  intros Hbody. induction selected_list as [| s rest IH]; intros handle; simpl.
  - reflexivity.
  - unfold and_then. specialize (Hbody s handle).
    destruct (body s handle) as [h1 t1]. specialize (IH h1).
    destruct (for_each body rest h1) as [h2 t2]. simpl in *.
    rewrite !count_app. congruence.
Qed.

Lemma install_packages_outcome handle kernels selected_list :
  install_packages handle kernels selected_list =
    (true,
     fst (for_each (install_selected kernels) selected_list handle),
     snd (for_each (install_selected kernels) selected_list handle)).
Proof.
  unfold install_packages.
  now destruct (for_each (install_selected kernels) selected_list handle).
Qed.

Lemma remove_packages_outcome handle kernels selected_list :
  remove_packages handle kernels selected_list =
    (true,
     fst (for_each (remove_selected kernels) selected_list handle),
     snd (for_each (remove_selected kernels) selected_list handle)).
Proof.
  unfold remove_packages.
  now destruct (for_each (remove_selected kernels) selected_list handle).
Qed.

Lemma outcome_for_each b (r : Handle * list event) :
  outcome (b, fst r, snd r) = r.
Proof. now destruct r. Qed.

Lemma for_each_split (body : string -> Handle -> Handle * list event)
    (pre : list string) (selected : string) (post : list string) handle :
  for_each body (pre ++ selected :: post) handle =
    (fst (for_each body post (fst (body selected (fst (for_each body pre handle))))),
     (snd (for_each body pre handle)
        ++ snd (body selected (fst (for_each body pre handle)))
        ++ snd (for_each body post
                  (fst (body selected (fst (for_each body pre handle))))))%list).
Proof.
  rewrite for_each_app. unfold and_then at 1.
  destruct (for_each body pre handle) as [h1 t1]. simpl. unfold and_then.
  destruct (body selected h1) as [h2 t2]. simpl.
  now destruct (for_each body post h2) as [h3 t3].
Qed.

(** C9: whatever [install] and [remove] answer, both batches return
    true and the trace holds one line on the standard error per failed
    call.  Every element of the list is processed, whatever happened to
    the ones before it: in the database the batch over [pre] left, a
    selected kernel that is not installed or has an update is handed to
    [install] (an installed one to [remove]), the answer of the library
    is what the trace records, a refusal is followed by its line on the
    standard error, and the batch goes on over [post] from the database
    that call left; a name that is no kernel, or a kernel the batch has
    nothing to do for, is passed over and the batch goes on over [post].
    No failure cuts the loop short and no call is undone. *)
Theorem packages_best_effort (handle : Handle) (kernels : list Kernel) :
  (forall selected_list,
      fst (fst (install_packages handle kernels selected_list)) = true
      /\ fst (fst (remove_packages handle kernels selected_list)) = true
      /\ count is_Stderr (snd (install_packages handle kernels selected_list)) =
           count is_failure (snd (install_packages handle kernels selected_list))
      /\ count is_Stderr (snd (remove_packages handle kernels selected_list)) =
           count is_failure (snd (remove_packages handle kernels selected_list)))
  /\ (forall pre selected post,
         outcome (install_packages handle kernels (pre ++ selected :: post)) =
           and_then (fun h => outcome (install_packages h kernels pre))
             (and_then (install_selected kernels selected)
                (fun h => outcome (install_packages h kernels post))) handle
         /\ outcome (remove_packages handle kernels (pre ++ selected :: post)) =
              and_then (fun h => outcome (remove_packages h kernels pre))
                (and_then (remove_selected kernels selected)
                   (fun h => outcome (remove_packages h kernels post))) handle)
  /\ (forall pre selected post kernel,
         let before := install_packages handle kernels pre in
         let answer := install kernel (snd (fst before)) in
         let after := install_packages (snd answer) kernels post in
         find (fun el => get_raw el =? selected) kernels = Some kernel ->
         negb (is_installed kernel (snd (fst before)))
         || is_update_available kernel (snd (fst before)) = true ->
         install_packages handle kernels (pre ++ selected :: post) =
           (true, snd (fst after),
            (snd before
               ++ CallInstall (get_raw kernel) (fst answer)
               :: (if fst answer then []
                   else [Stderr ("failed to add package to be installed ("
                                   ++ alpm_last_error (snd answer) ++ ")" ++ nl)])
               ++ snd after)%list))
  /\ (forall pre selected post kernel,
         let before := remove_packages handle kernels pre in
         let answer := remove kernel (snd (fst before)) in
         let after := remove_packages (snd answer) kernels post in
         find (fun el => get_raw el =? selected) kernels = Some kernel ->
         is_installed kernel (snd (fst before)) = true ->
         remove_packages handle kernels (pre ++ selected :: post) =
           (true, snd (fst after),
            (snd before
               ++ CallRemove (get_raw kernel) (fst answer)
               :: (if fst answer then []
                   else [Stderr ("failed to add package to be removed ("
                                   ++ alpm_last_error (snd answer) ++ ")" ++ nl)])
               ++ snd after)%list))
  /\ (forall pre selected post,
         let before := install_packages handle kernels pre in
         let after := install_packages (snd (fst before)) kernels post in
         find (fun el => get_raw el =? selected) kernels = None
         \/ (exists kernel,
                find (fun el => get_raw el =? selected) kernels = Some kernel
                /\ is_installed kernel (snd (fst before)) = true
                /\ is_update_available kernel (snd (fst before)) = false) ->
         install_packages handle kernels (pre ++ selected :: post) =
           (true, snd (fst after), (snd before ++ snd after)%list))
  /\ (forall pre selected post,
         let before := remove_packages handle kernels pre in
         let after := remove_packages (snd (fst before)) kernels post in
         find (fun el => get_raw el =? selected) kernels = None
         \/ (exists kernel,
                find (fun el => get_raw el =? selected) kernels = Some kernel
                /\ is_installed kernel (snd (fst before)) = false) ->
         remove_packages handle kernels (pre ++ selected :: post) =
           (true, snd (fst after), (snd before ++ snd after)%list)).
Proof.
  split; [| split; [| split; [| split; [| split]]]].
  - intros l. rewrite install_packages_outcome, remove_packages_outcome. simpl.
    repeat split.
    + apply for_each_logged, install_selected_logged.
    + apply for_each_logged, remove_selected_logged.
  - intros pre s post. split.
    + rewrite install_packages_outcome, outcome_for_each, for_each_app. simpl.
      unfold and_then at 1 3.
      rewrite install_packages_outcome, outcome_for_each.
      destruct (for_each (install_selected kernels) pre handle) as [h1 t1].
      unfold and_then.
      destruct (install_selected kernels s h1) as [h2 t2].
      now rewrite install_packages_outcome, outcome_for_each.
    + rewrite remove_packages_outcome, outcome_for_each, for_each_app. simpl.
      unfold and_then at 1 3.
      rewrite remove_packages_outcome, outcome_for_each.
      destruct (for_each (remove_selected kernels) pre handle) as [h1 t1].
      unfold and_then.
      destruct (remove_selected kernels s h1) as [h2 t2].
      now rewrite remove_packages_outcome, outcome_for_each.
  - intros pre s post kernel before answer after Hf He.
    subst before answer after. revert He.
    rewrite !install_packages_outcome. cbn [fst snd]. intros He.
    rewrite for_each_split.
    set (h1 := fst (for_each (install_selected kernels) pre handle)) in *.
    assert (Hbody : install_selected kernels s h1 =
                      (snd (install kernel h1),
                       CallInstall (get_raw kernel) (fst (install kernel h1))
                       :: (if fst (install kernel h1) then []
                           else [Stderr ("failed to add package to be installed ("
                                           ++ alpm_last_error (snd (install kernel h1))
                                           ++ ")" ++ nl)]))).
    { unfold install_selected. rewrite Hf, He.
      destruct (install kernel h1) as [[|] h2]; reflexivity. }
    rewrite Hbody. reflexivity.
  - intros pre s post kernel before answer after Hf Hi.
    subst before answer after. revert Hi.
    rewrite !remove_packages_outcome. cbn [fst snd]. intros Hi.
    rewrite for_each_split.
    set (h1 := fst (for_each (remove_selected kernels) pre handle)) in *.
    assert (Hbody : remove_selected kernels s h1 =
                      (snd (remove kernel h1),
                       CallRemove (get_raw kernel) (fst (remove kernel h1))
                       :: (if fst (remove kernel h1) then []
                           else [Stderr ("failed to add package to be removed ("
                                           ++ alpm_last_error (snd (remove kernel h1))
                                           ++ ")" ++ nl)]))).
    { unfold remove_selected. rewrite Hf, Hi.
      destruct (remove kernel h1) as [[|] h2]; reflexivity. }
    rewrite Hbody. reflexivity.
  - intros pre s post before after Hskip. subst before after. revert Hskip.
    rewrite !install_packages_outcome. cbn [fst snd]. intros Hskip.
    rewrite for_each_split.
    set (h1 := fst (for_each (install_selected kernels) pre handle)) in *.
    assert (Hbody : install_selected kernels s h1 = (h1, [])).
    { unfold install_selected.
      destruct Hskip as [-> | (kernel & -> & -> & ->)]; reflexivity. }
    now rewrite Hbody.
  - intros pre s post before after Hskip. subst before after. revert Hskip.
    rewrite !remove_packages_outcome. cbn [fst snd]. intros Hskip.
    rewrite for_each_split.
    set (h1 := fst (for_each (remove_selected kernels) pre handle)) in *.
    assert (Hbody : remove_selected kernels s h1 = (h1, [])).
    { unfold remove_selected.
      destruct Hskip as [-> | (kernel & -> & ->)]; reflexivity. }
    now rewrite Hbody.
Qed.

(** *** The worker and the two flags *)


Lemma transaction_fields (w : MainWindow Handle) :
  m_change_list (transaction w) = m_change_list w
  /\ m_running (transaction w) = false
  /\ m_thread_running (transaction w) = m_thread_running w
  /\ exists t, log (transaction w) = (log w ++ t ++ [CallCommit])%list.
Proof.
  unfold transaction. simpl.
  destruct (install_packages _ _ _) as [[r1 h1] t1].
  destruct (remove_packages _ _ _) as [[r2 h2] t2]. simpl.
  repeat split. exists (t1 ++ t2)%list. now rewrite <- !app_assoc.
Qed.

Lemma worker_step_change_list (w : MainWindow Handle) :
  m_change_list (worker_step w) = m_change_list w.
Proof.
  unfold worker_step. destruct (m_worker_th w).
  - reflexivity.
  - now destruct (m_thread_running w).
  - now destruct (m_running w).
  - destruct (m_running w && m_thread_running w); simpl; [| reflexivity].
    apply transaction_fields.
  - reflexivity.
Qed.

Lemma worker_run_change_list n (w : MainWindow Handle) :
  m_change_list (worker_run n w) = m_change_list w.
Proof.
  revert w. induction n as [| n IH]; intros w; simpl; [reflexivity |].
  now rewrite IH, worker_step_change_list.
Qed.




(** C6: with the running flag already set, [on_execute] returns the
    window as it found it: flags, condition variable, worker thread,
    change list and all the rest. *)
Theorem on_execute_while_running (w : MainWindow Handle) :
  m_running w = true -> on_execute w = w.
Proof.
  intros Hr. unfold on_execute. now rewrite Hr.
Qed.

(** C1, as the code has it: a transaction of the worker (snapshot,
    installs, removals, commit) clears the running flag and leaves
    [m_change_list] as it was; it only reads it.  No move of the
    worker ever changes the change list. *)
Theorem transaction_keeps_change_list (w : MainWindow Handle) :
  m_change_list (transaction w) = m_change_list w
  /\ m_running (transaction w) = false
  /\ (exists t, log (transaction w) = (log w ++ t ++ [CallCommit])%list)
  /\ (forall n, m_change_list (worker_run n w) = m_change_list w).
Proof.
  destruct (transaction_fields w) as (Hc & Hr & _ & Hl).
  repeat split; try assumption.
  intros n. apply worker_run_change_list.
Qed.


End Facts.

(** *** The change list under toggles *)

Section ChangeList.
Context {Handle : Type} `{Libalpm Handle}.

Lemma nth_error_replace_nth_eq {A} (l : list A) i x y :
  nth_error l i = Some y -> nth_error (replace_nth i x l) i = Some x.
Proof.
  revert i. induction l as [| a l IH]; intros [| i] Hi; simpl in *;
    try discriminate; auto.
Qed.

Lemma nth_error_replace_nth_neq {A} (l : list A) i j x :
  i <> j -> nth_error (replace_nth i x l) j = nth_error l j.
Proof.
  revert i j. induction l as [| a l IH]; intros [| i] [| j] Hij; simpl;
    try reflexivity; try (now elim Hij).
  apply IH. congruence.
Qed.

Lemma map_replace_nth {A B} (f : A -> B) (l : list A) i x y :
  nth_error l i = Some y -> f x = f y -> map f (replace_nth i x l) = map f l.
Proof.
  revert i. induction l as [| a l IH]; intros [| i] Hi Hf; simpl in *;
    try discriminate.
  - injection Hi as ->. now rewrite Hf.
  - now rewrite (IH i Hi Hf).
Qed.

Lemma distinct_names_rows (tree : list QTreeWidgetItem) i j a b :
  NoDup (map PkgName tree) ->
  nth_error tree i = Some a -> nth_error tree j = Some b ->
  PkgName a = PkgName b -> i = j.
Proof.
  intros Hnd Ha Hb Hab.
  apply (proj1 (NoDup_nth_error (map PkgName tree)) Hnd).
  - rewrite length_map. apply nth_error_Some. congruence.
  - rewrite !nth_error_map, Ha, Hb. simpl. now rewrite Hab.
Qed.

Lemma occurrences_append l name x :
  occurrences (l ++ [name]) x =
    occurrences l x + (if string_dec name x then 1 else 0).
Proof.
  unfold occurrences. rewrite count_occ_app. simpl.
  now destruct (string_dec name x).
Qed.

Lemma occurrences_removeOne l name x :
  occurrences (removeOne name l) x =
    if string_dec name x then pred (occurrences l x) else occurrences l x.
Proof.
  unfold occurrences. induction l as [| a l IH]; simpl.
  - now destruct (string_dec name x).
  - destruct (String.eqb_spec a name) as [-> | Hne].
    + destruct (string_dec name x); reflexivity.
    + simpl. rewrite IH.
      destruct (string_dec a x) as [-> | Hax]; [| reflexivity].
      destruct (string_dec name x); [now elim Hne | reflexivity].
Qed.

Lemma is_checked_toggled it : is_checked (toggled it) = negb (is_checked it).
Proof. unfold toggled, is_checked. now destruct (checkState it). Qed.

(** A toggle either changes nothing (no such row, or a row with
    children) or flips row [i] and appends or removes its name. *)
Lemma toggle_effect (w : MainWindow Handle) i :
  (treeKernels (toggle w i) = treeKernels w
   /\ m_change_list (toggle w i) = m_change_list w)
  \/ exists item,
      nth_error (treeKernels w) i = Some item
      /\ treeKernels (toggle w i) = replace_nth i (toggled item) (treeKernels w)
      /\ m_change_list (toggle w i) =
           if is_immutable item || negb (is_checked item)
           then (m_change_list w ++ [PkgName item])%list
           else removeOne (PkgName item) (m_change_list w).
Proof.
  unfold toggle, itemDoubleClicked, checkUncheckItem. simpl.
  destruct (nth_error (treeKernels w) i) as [item |] eqn:Hi; [| now left].
  destruct (0 <? childCount item)%nat; [now left |].
  right. exists item. split; [reflexivity |].
  unfold setCheckState. simpl. rewrite Hi.
  assert (Hneq : CheckState_eqb (checkState item)
                   (if CheckState_eqb (checkState item) Checked
                    then Unchecked else Checked) = false)
    by now destruct (checkState item).
  rewrite Hneq. unfold item_changed. simpl.
  rewrite (nth_error_replace_nth_eq _ _ _ _ Hi).
  fold (is_checked item). fold (toggled item).
  assert (Hb : forall w' : MainWindow Handle,
             nth_error (treeKernels w') i = Some (toggled item) ->
             treeKernels (buildChangeList i w') = treeKernels w'
             /\ m_change_list (buildChangeList i w') =
                  if is_immutable item || negb (is_checked item)
                  then (m_change_list w' ++ [PkgName item])%list
                  else removeOne (PkgName item) (m_change_list w')).
  { intros w' Hw'. unfold buildChangeList. rewrite Hw'.
    unfold toggled, is_immutable, is_checked. simpl.
    destruct (Immutable item =? "true"), (checkState item); simpl;
      repeat match goal with
             | |- context [isEmpty ?l] => destruct (isEmpty l)
             end; split; reflexivity. }
  destruct (CheckState_eqb (checkState (toggled item)) Checked);
    match goal with
    | |- context [buildChangeList i ?w'] =>
        destruct (Hb w') as [Ht Hc];
          [simpl; apply (nth_error_replace_nth_eq _ _ _ _ Hi) |];
          rewrite Ht, Hc; simpl; split; reflexivity
    end.
Qed.

Lemma change_list_inv_toggle tree l i item :
  change_list_inv tree l ->
  nth_error tree i = Some item ->
  change_list_inv (replace_nth i (toggled item) tree)
    (if is_immutable item || negb (is_checked item)
     then (l ++ [PkgName item])%list
     else removeOne (PkgName item) l).
Proof.
  intros [Hnd Hmut Himm Hlist] Hi.
  assert (Hnames : map PkgName (replace_nth i (toggled item) tree) = map PkgName tree)
    by now apply (map_replace_nth PkgName tree i (toggled item) item).
  (* the occurrences of another name do not move *)
  assert (Hother : forall x, x <> PkgName item ->
            occurrences (if is_immutable item || negb (is_checked item)
                         then (l ++ [PkgName item])%list
                         else removeOne (PkgName item) l) x = occurrences l x).
  { intros x Hx.
    destruct (is_immutable item || negb (is_checked item)).
    - rewrite occurrences_append.
      destruct (string_dec (PkgName item) x); [now elim Hx | lia].
    - rewrite occurrences_removeOne.
      destruct (string_dec (PkgName item) x); [now elim Hx | reflexivity]. }
  (* a row other than [i] is as before and has another name *)
  assert (Hrow : forall j it, j <> i ->
            nth_error (replace_nth i (toggled item) tree) j = Some it ->
            nth_error tree j = Some it /\ PkgName it <> PkgName item).
  { intros j it Hj Hit.
    rewrite nth_error_replace_nth_neq in Hit by congruence.
    split; [exact Hit |]. intros Heq. apply Hj.
    exact (distinct_names_rows tree j i it item Hnd Hit Hi Heq). }
  assert (Hself : nth_error (replace_nth i (toggled item) tree) i = Some (toggled item))
    by exact (nth_error_replace_nth_eq _ _ _ _ Hi).
  split.
  - now rewrite Hnames.
  - intros j it Hit Hm.
    destruct (Nat.eq_dec j i) as [-> | Hj].
    + rewrite Hself in Hit. injection Hit as <-.
      change (is_immutable item = false) in Hm.
      rewrite is_checked_toggled. change (PkgName (toggled item)) with (PkgName item).
      pose proof (Hmut i item Hi Hm) as Hocc. rewrite Hm. simpl.
      destruct (is_checked item); simpl.
      * rewrite occurrences_removeOne.
        destruct (string_dec (PkgName item) (PkgName item)); [| congruence].
        now rewrite Hocc.
      * rewrite occurrences_append.
        destruct (string_dec (PkgName item) (PkgName item)); [| congruence].
        now rewrite Hocc.
    + destruct (Hrow j it Hj Hit) as [Hold Hname].
      rewrite (Hother _ Hname). exact (Hmut j it Hold Hm).
  - intros j it Hit Hm Hc.
    destruct (Nat.eq_dec j i) as [-> | Hj].
    + rewrite Hself in Hit. injection Hit as <-.
      change (is_immutable item = true) in Hm.
      change (PkgName (toggled item)) with (PkgName item).
      rewrite Hm. simpl. rewrite occurrences_append.
      destruct (string_dec (PkgName item) (PkgName item)); [lia | congruence].
    + destruct (Hrow j it Hj Hit) as [Hold Hname].
      rewrite (Hother _ Hname). exact (Himm j it Hold Hm Hc).
  - intros name Hocc.
    destruct (string_dec name (PkgName item)) as [-> | Hname].
    + exists i, (toggled item). split; [exact Hself |]. split; [reflexivity |].
      change (is_immutable (toggled item)) with (is_immutable item).
      rewrite is_checked_toggled.
      destruct (is_immutable item) eqn:Hm; [now left | right].
      destruct (is_checked item) eqn:Hc; [| reflexivity].
      simpl in Hocc. rewrite occurrences_removeOne in Hocc.
      destruct (string_dec (PkgName item) (PkgName item)); [| congruence].
      pose proof (Hmut i item Hi Hm) as Hone. rewrite Hc in Hone.
      rewrite Hone in Hocc. simpl in Hocc. lia.
    + rewrite (Hother _ Hname) in Hocc.
      destruct (Hlist name Hocc) as (j & it & Hit & Hn & Hor).
      assert (Hj : j <> i).
      { intros ->. rewrite Hi in Hit. injection Hit as <-. now elim Hname. }
      exists j, it. split; [| now split].
      now rewrite nth_error_replace_nth_neq by congruence.
Qed.

Lemma change_list_inv_toggles (w : MainWindow Handle) rows :
  change_list_inv (treeKernels w) (m_change_list w) ->
  change_list_inv (treeKernels (toggles w rows)) (m_change_list (toggles w rows)).
Proof.
  unfold toggles. revert w. induction rows as [| i rows IH]; intros w Hinv; simpl.
  - exact Hinv.
  - apply IH.
    destruct (toggle_effect w i) as [[-> ->] | (item & Hi & -> & ->)].
    + exact Hinv.
    + now apply change_list_inv_toggle.
Qed.

Lemma new_item_fields handle kernel :
  PkgName (new_item handle kernel) = get_raw kernel
  /\ is_checked (new_item handle kernel) = is_immutable (new_item handle kernel).
Proof.
  unfold new_item, is_checked, is_immutable, fromStdString.
  destruct (is_installed kernel handle); simpl; [| now split].
  destruct (negb (empty (get_installed_db kernel handle))
            && negb (get_installed_db kernel handle =? get_repo kernel));
    simpl; now split.
Qed.

Lemma change_list_inv_new hdr handle kernels :
  NoDup (map get_raw kernels) ->
  change_list_inv (treeKernels (MainWindow_new hdr handle kernels))
    (m_change_list (MainWindow_new hdr handle kernels)).
Proof.
  intros Hnd. simpl.
  assert (Hrow : forall j it,
             nth_error (map (new_item handle) kernels) j = Some it ->
             is_checked it = is_immutable it).
  { intros j it Hit. apply nth_error_In, in_map_iff in Hit.
    destruct Hit as (k & <- & _). apply new_item_fields. }
  split.
  - rewrite map_map.
    rewrite (map_ext _ get_raw); [exact Hnd |].
    intros k. apply new_item_fields.
  - intros j it Hit Hm. rewrite (Hrow j it Hit), Hm. reflexivity.
  - intros j it Hit Hm Hc. rewrite (Hrow j it Hit) in Hc. congruence.
  - intros name Hocc. unfold occurrences in Hocc. simpl in Hocc. lia.
Qed.

(** C2, as the code has it: the kernels having distinct names, after
    any sequence of toggles from the initial window a row that is
    not immutable has its name once in the change list when it is
    checked and not at all otherwise; an immutable row (an installed
    kernel) that is now unchecked has its name in the change list,
    to be removed; and every name in the change list is that of a
    row that is immutable or checked. *)
Theorem change_list_after_toggles (hdr : Header) (handle : Handle)
    (kernels : list Kernel) (rows : list nat) :
  NoDup (map get_raw kernels) ->
  (forall it, In it (treeKernels (toggles (MainWindow_new hdr handle kernels) rows)) ->
     is_immutable it = false ->
     occurrences (m_change_list (toggles (MainWindow_new hdr handle kernels) rows))
       (PkgName it) = if is_checked it then 1 else 0)
  /\ (forall it, In it (treeKernels (toggles (MainWindow_new hdr handle kernels) rows)) ->
        is_immutable it = true -> is_checked it = false ->
        In (PkgName it)
          (m_change_list (toggles (MainWindow_new hdr handle kernels) rows)))
  /\ (forall name,
        In name (m_change_list (toggles (MainWindow_new hdr handle kernels) rows)) ->
        exists it,
          In it (treeKernels (toggles (MainWindow_new hdr handle kernels) rows))
          /\ PkgName it = name
          /\ (is_immutable it = true \/ is_checked it = true)).
Proof.
  intros Hnd.
  destruct (change_list_inv_toggles _ rows (change_list_inv_new hdr handle kernels Hnd))
    as [_ Hmut Himm Hlist].
  repeat split.
  - intros it Hin Hm. apply In_nth_error in Hin. destruct Hin as [j Hj].
    exact (Hmut j it Hj Hm).
  - intros it Hin Hm Hc. apply In_nth_error in Hin. destruct Hin as [j Hj].
    apply (count_occ_In string_dec). exact (Himm j it Hj Hm Hc).
  - intros name Hin. apply (count_occ_In string_dec) in Hin.
    destruct (Hlist name Hin) as (j & it & Hit & Hn & Hor).
    exists it. split; [exact (nth_error_In _ _ Hit) | now split].
Qed.

End ChangeList.

Import Sample.

(** C1, as stated, fails: the user has checked the rt kernel and
    confirmed; the worker installs it and commits, and the change list
    still holds it. *)
Lemma change_list_survives_commit :
  m_worker_th window_confirmed = AtIf
  /\ m_running window_confirmed && m_thread_running window_confirmed = true
  /\ log (worker_step window_confirmed) =
       (log window_confirmed ++ [CallInstall "linux-cachyos-rt" true; CallCommit])%list
  /\ m_change_list (worker_step window_confirmed) = ["linux-cachyos-rt"]
  /\ m_change_list (worker_step window_confirmed) <> [].
Proof.
  vm_compute. repeat split. discriminate.
Qed.

Lemma on_execute_while_running_witness :
  m_running window_confirmed = true
  /\ on_execute window_confirmed = window_confirmed.
Proof.
  split; [reflexivity |].
  apply (on_execute_while_running window_confirmed). reflexivity.
Defined.


(** C2, as stated, fails: unchecking the installed kernel of the first
    row puts its name in the change list, though that row is then
    neither checked nor free of the immutable mark. *)
Lemma unchecked_installed_kernel_is_listed :
  m_change_list (toggles window0 [0]) = ["linux-cachyos"]
  /\ checked_mutable_rows (treeKernels (toggles window0 [0])) = []
  /\ ~ (forall name,
          In name (m_change_list (toggles window0 [0])) <->
          In name (checked_mutable_rows (treeKernels (toggles window0 [0])))).
Proof.
  assert (Hl : m_change_list (toggles window0 [0]) = ["linux-cachyos"])
    by reflexivity.
  assert (Hr : checked_mutable_rows (treeKernels (toggles window0 [0])) = [])
    by reflexivity.
  split; [exact Hl |]. split; [exact Hr |].
  rewrite Hl, Hr. intros Hall.
  exact (proj1 (Hall "linux-cachyos") (or_introl eq_refl)).
Qed.

Lemma change_list_after_toggles_witness :
  NoDup (map get_raw kernels0)
  /\ (forall it,
        In it (treeKernels (toggles window0 [2; 1; 2; 0])) ->
        is_immutable it = false ->
        occurrences (m_change_list (toggles window0 [2; 1; 2; 0])) (PkgName it) =
          if is_checked it then 1 else 0).
Proof.
  assert (Hnd : NoDup (map get_raw kernels0)).
  { repeat constructor; simpl; intuition discriminate. }
  split; [exact Hnd |].
  exact (proj1 (change_list_after_toggles header0 db0 kernels0 [2; 1; 2; 0] Hnd)).
Defined.

Lemma packages_best_effort_witness :
  install_packages db0 kernels0 ["linux-cachyos-lts"; "linux-cachyos-rt"] =
    (true,
     snd (db_install linux_cachyos_rt db0),
     [CallInstall "linux-cachyos-lts" false;
      Stderr ("failed to add package to be installed (operation failed)" ++ nl);
      CallInstall "linux-cachyos-rt" true]).
Proof.
  exact (proj1 (proj2 (proj2 (packages_best_effort db0 kernels0)))
           ["linux-cachyos-lts"] "linux-cachyos-rt" [] linux_cachyos_rt
           eq_refl eq_refl).
Defined.

(** A batch in which the library refuses the first package: the
    failure is logged and the second package is still installed. *)
Example install_packages_after_refusal :
  install_packages db0 kernels0 ["linux-cachyos-lts"; "linux-cachyos-rt"] =
    (true,
     snd (db_install linux_cachyos_rt db0),
     [CallInstall "linux-cachyos-lts" false;
      Stderr ("failed to add package to be installed (operation failed)" ++ nl);
      CallInstall "linux-cachyos-rt" true]).
Proof. reflexivity. Qed.

End KernelManagerFacts.

(** ** More on the scheduler window *)

Module SchedExtMore.
Import Text SchedExt Props Behaviour SchedExtFacts.

(** *** One line is read *)

Lemma read_line_no_newline s : no_newline (read_line s) = true.
Proof.
  induction s as [| c r IH]; simpl; [reflexivity |].
  destruct (Ascii.eqb c "010"%char) eqn:Hc; simpl; [reflexivity |].
  now rewrite Hc, IH.
Qed.

Lemma read_line_first line rest :
  no_newline line = true -> read_line (line ++ nl ++ rest) = line.
Proof.
  induction line as [| c r IH]; simpl; intros Hl; [reflexivity |].
  apply andb_prop in Hl. destruct Hl as [Hc Hr].
  apply negb_true_iff in Hc. rewrite Hc. f_equal. exact (IH Hr).
Qed.

Lemma read_line_whole line : no_newline line = true -> read_line line = line.
Proof.
  induction line as [| c r IH]; simpl; intros Hl; [reflexivity |].
  apply andb_prop in Hl. destruct Hl as [Hc Hr].
  apply negb_true_iff in Hc. rewrite Hc. now rewrite IH.
Qed.

Lemma read_kernel_file_no_newline env path :
  no_newline (value (read_kernel_file path env)) = true.
Proof.
  rewrite read_kernel_file_value.
  destruct (file_system env path) as [| | text]; try reflexivity.
  destruct text as [| c r]; [reflexivity |].
  apply read_line_no_newline.
Qed.

(** X1: of a file that can be read, [read_kernel_file] returns the
    first line without its line break, whatever follows it; a file
    without any line break is returned whole. *)
Theorem read_kernel_file_first_line (env : Env) (path line rest : string) :
  no_newline line = true ->
  file_system env path = Content (line ++ nl ++ rest)
  \/ file_system env path = Content line ->
  value (read_kernel_file path env) = line.
Proof.
  intros Hl Hf. rewrite read_kernel_file_value.
  destruct Hf as [-> | ->].
  - destruct line as [| c r]; simpl getline.
    + reflexivity.
    + exact (read_line_first (String c r) rest Hl).
  - destruct line as [| c r]; simpl getline; [reflexivity |].
    exact (read_line_whole (String c r) Hl).
Qed.

Lemma read_kernel_file_first_line_witness :
  value (read_kernel_file state_path env_two_lines) = "enabled".
Proof.
  apply (read_kernel_file_first_line env_two_lines state_path "enabled"
           ("ignored" ++ nl)).
  - reflexivity.
  - left. reflexivity.
Defined.

(** X2: what [get_current_scheduler] returns never holds a line break,
    and it is empty exactly when the read of the state file gave the
    empty string: with the state "enabled" the result is never empty.
    [update_current_sched] shows that text in the label. *)
Theorem get_current_scheduler_single_line (env : Env) (u : Ui) :
  no_newline (value (get_current_scheduler env)) = true
  /\ (value (get_current_scheduler env) = EmptyString <->
      value (read_kernel_file state_path env) = EmptyString)
  /\ current_sched_label (value (update_current_sched u env)) =
       value (get_current_scheduler env).
Proof.
  assert (Hcases :
            value (get_current_scheduler env) = value (read_kernel_file state_path env)
            /\ value (read_kernel_file state_path env) <> "enabled"
            \/ value (read_kernel_file state_path env) = "enabled"
               /\ value (get_current_scheduler env) =
                    (if empty (value (read_kernel_file ops_path env)) then "unknown"
                     else value (read_kernel_file ops_path env))).
  { destruct (String.eqb_spec (value (read_kernel_file state_path env)) "enabled")
      as [He | Hne].
    - right. split; [exact He |]. now apply get_current_scheduler_enabled.
    - left. split; [| exact Hne].
      now rewrite (get_current_scheduler_not_enabled env Hne). }
  split; [| split].
  - destruct Hcases as [[-> _] | [_ ->]].
    + apply read_kernel_file_no_newline.
    + destruct (empty (value (read_kernel_file ops_path env)));
        [reflexivity | apply read_kernel_file_no_newline].
  - destruct Hcases as [[-> _] | [He ->]]; [tauto |].
    rewrite He. split; [| discriminate].
    destruct (value (read_kernel_file ops_path env)); simpl; discriminate.
  - unfold update_current_sched. rewrite value_bind. reflexivity.
Qed.

Lemma get_current_scheduler_single_line_witness :
  value (get_current_scheduler Sample.env_no_sched_ext) = EmptyString.
Proof.
  apply (proj1 (proj2 (get_current_scheduler_single_line Sample.env_no_sched_ext
                         (Sample.ui_of EmptyString EmptyString)))).
  reflexivity.
Defined.

(** *** Which files are opened *)

Lemma read_kernel_file_opens env path :
  filter is_OpenFile (trace (read_kernel_file path env)) = [OpenFile path]
  /\ forallb is_file_event (trace (read_kernel_file path env)) = true.
Proof.
  unfold read_kernel_file. rewrite trace_bind. unfold ifstream at 1 2. simpl.
  destruct (file_system env path) as [| | text]; simpl; [now split | now split |].
  destruct (getline text); simpl; now split.
Qed.

Lemma get_current_scheduler_trace_enabled env :
  value (read_kernel_file state_path env) = "enabled" ->
  trace (get_current_scheduler env) =
    (trace (read_kernel_file state_path env)
       ++ trace (read_kernel_file ops_path env))%list.
Proof.
  intros He. unfold get_current_scheduler. rewrite trace_bind, He. simpl.
  rewrite trace_bind.
  destruct (empty (value (read_kernel_file ops_path env))); simpl;
    now rewrite app_nil_r.
Qed.

(** X3: [get_current_scheduler] does nothing but read: its trace holds
    only opens and complaints on the standard error.  It opens the
    state file, and after it the ops file exactly when the state read
    "enabled"; no other file, and none twice. *)
Theorem get_current_scheduler_opens (env : Env) :
  forallb is_file_event (trace (get_current_scheduler env)) = true
  /\ filter is_OpenFile (trace (get_current_scheduler env)) =
       if value (read_kernel_file state_path env) =? "enabled"
       then [OpenFile state_path; OpenFile ops_path]
       else [OpenFile state_path].
Proof.
  destruct (read_kernel_file_opens env state_path) as [Hs1 Hs2].
  destruct (read_kernel_file_opens env ops_path) as [Ho1 Ho2].
  destruct (String.eqb_spec (value (read_kernel_file state_path env)) "enabled")
    as [He | Hne].
  - rewrite (get_current_scheduler_trace_enabled env He).
    rewrite forallb_app, filter_app, Hs1, Hs2, Ho1, Ho2. now split.
  - rewrite (get_current_scheduler_not_enabled env Hne). unfold trace at 1 3. simpl.
    now split.
Qed.

(** *** The processes the two slots start *)

(** X4: [on_disable] starts at most one process.  With the service
    enabled it is [systemctl disable --now scx] through pkexec and the
    question whether the service is active is never asked; with the
    service not enabled but active it is [systemctl stop scx]. *)
Theorem on_disable_one_process (env : Env) (u : Ui) :
  length (filter is_StartDetached (trace (on_disable u env))) <= 1
  /\ (exec env "systemctl is-enabled scx" = "enabled" ->
      trace (on_disable u env) =
        [Exec "systemctl is-enabled scx";
         StartDetached pkexec ["/usr/bin/systemctl"; "disable"; "--now"; "scx"];
         Stdout ("Disabling scx" ++ nl)])
  /\ (exec env "systemctl is-enabled scx" <> "enabled" ->
      exec env "systemctl is-active scx" = "active" ->
      filter is_StartDetached (trace (on_disable u env)) =
        [StartDetached pkexec ["/usr/bin/systemctl"; "stop"; "scx"]]).
Proof.
  rewrite on_disable_trace.
  destruct (String.eqb_spec (exec env "systemctl is-enabled scx") "enabled") as [He | He];
    [| destruct (String.eqb_spec (exec env "systemctl is-active scx") "active")
         as [Ha | Ha]];
    simpl; repeat split; try lia; try reflexivity; intros; congruence.
Qed.

Lemma on_disable_one_process_witness :
  trace (on_disable (Sample.ui_of EmptyString "scx_rusty") Sample.env_enabled_no_ops) =
    [Exec "systemctl is-enabled scx";
     StartDetached pkexec ["/usr/bin/systemctl"; "disable"; "--now"; "scx"];
     Stdout ("Disabling scx" ++ nl)].
Proof.
  apply (proj1 (proj2 (on_disable_one_process Sample.env_enabled_no_ops
                         (Sample.ui_of EmptyString "scx_rusty")))).
  reflexivity.
Defined.

(** X5: [on_apply] starts exactly one process whatever it is given,
    bash through pkexec with the sed and systemctl command line, and the
    systemctl verb is "restart" when the service is enabled and
    "enable --now" otherwise.  It asks for nothing but whether the
    service is enabled, and it leaves the form as it was but for the two
    buttons, which end enabled. *)
Theorem on_apply_single_command (env : Env) (u : Ui) :
  filter is_StartDetached (trace (on_apply u env)) =
    [StartDetached pkexec
       ["/usr/bin/bash"; "-c";
        sed_cmd (toStdString (schedext_combo_box u))
          (get_scx_flags_sed (toStdString (trimmed (schedext_flags_edit u)))
             (contains "#SCX_FLAGS=" (read_whole_file env scx_conf_path)))
          (if exec env "systemctl is-enabled scx" =? "enabled"
           then "restart" else "enable --now")]]
  /\ filter is_Exec (trace (on_apply u env)) = [Exec "systemctl is-enabled scx"]
  /\ value (on_apply u env) = set_apply_button true (set_disable_button true u).
Proof.
  rewrite on_apply_trace. repeat split.
  unfold on_apply. rewrite !value_bind. reflexivity.
Qed.

(** *** White space around the flags *)

Lemma drop_spaces_all ws l :
  all_spaces ws = true -> drop_spaces (ws ++ l) = drop_spaces l.
Proof.
  induction ws as [| c ws IH]; simpl; intros Hws; [reflexivity |].
  apply andb_prop in Hws. destruct Hws as [Hc Hws]. rewrite Hc. now apply IH.
Qed.

Lemma all_spaces_rev ws : all_spaces (rev ws) = all_spaces ws.
Proof.
  unfold all_spaces. induction ws as [| c ws IH]; simpl; [reflexivity |].
  rewrite forallb_app, IH. simpl. rewrite andb_true_r. apply andb_comm.
Qed.

Lemma drop_spaces_head c l :
  isSpace c = false -> drop_spaces (c :: l) = c :: l.
Proof. intros Hc. simpl. now rewrite Hc. Qed.

Lemma trimmed_strips ws1 t ws2 :
  all_spaces ws1 = true -> all_spaces ws2 = true -> no_outer_space t = true ->
  trimmed (string_of_list_ascii (ws1 ++ t ++ ws2)) = string_of_list_ascii t.
Proof.
  intros H1 H2 Ht. unfold trimmed.
  rewrite list_ascii_of_string_of_list_ascii, (drop_spaces_all ws1 _ H1).
  f_equal.
  destruct t as [| c r].
  - simpl app. rewrite <- (app_nil_r ws2), (drop_spaces_all ws2 [] H2). reflexivity.
  - apply andb_prop in Ht. destruct Ht as [Hc Hlast].
    apply negb_true_iff in Hc.
    change ((c :: r) ++ ws2)%list with (c :: (r ++ ws2))%list.
    rewrite (drop_spaces_head c _ Hc).
    change (c :: (r ++ ws2))%list with ((c :: r) ++ ws2)%list.
    rewrite rev_app_distr, drop_spaces_all by now rewrite all_spaces_rev.
    destruct (rev (c :: r)) as [| d q] eqn:Hrev.
    + apply (f_equal (@rev ascii)) in Hrev. rewrite rev_involutive in Hrev.
      discriminate Hrev.
    + apply negb_true_iff in Hlast. rewrite (drop_spaces_head d q Hlast).
      rewrite <- Hrev. apply rev_involutive.
Qed.

(** X6: white space before and after the flags the user typed makes no
    difference: [on_apply] leaves the same trace, with the same command
    line, as for the text without it. *)
Theorem on_apply_ignores_outer_space (env : Env) (u : Ui) (ws1 t ws2 : list ascii) :
  all_spaces ws1 = true -> all_spaces ws2 = true -> no_outer_space t = true ->
  schedext_flags_edit u = string_of_list_ascii (ws1 ++ t ++ ws2) ->
  trace (on_apply u env) =
    trace (on_apply (set_flags_edit (string_of_list_ascii t) u) env).
Proof.
  intros H1 H2 Ht Hu.
  assert (Hid : trimmed (string_of_list_ascii t) = string_of_list_ascii t).
  { pose proof (trimmed_strips [] t [] eq_refl eq_refl Ht) as Hx.
    change ([] ++ t ++ [])%list with (t ++ [])%list in Hx.
    now rewrite app_nil_r in Hx. }
  rewrite !on_apply_trace. simpl. rewrite Hu.
  rewrite (trimmed_strips ws1 t ws2 H1 H2 Ht), Hid.
  reflexivity.
Qed.

Lemma on_apply_ignores_outer_space_witness :
  trace (on_apply (Sample.ui_of " -v  " "scx_lavd") Sample.env_disabled) =
    trace (on_apply (set_flags_edit "-v" (Sample.ui_of " -v  " "scx_lavd"))
             Sample.env_disabled).
Proof.
  apply (on_apply_ignores_outer_space Sample.env_disabled
           (Sample.ui_of " -v  " "scx_lavd")
           (list_ascii_of_string " ") (list_ascii_of_string "-v")
           (list_ascii_of_string "  ")); reflexivity.
Defined.

(** X7: a flags field that is empty or holds nothing but white space
    counts as no flags.  If the configuration has its flags line
    commented already the command line has no expression for the flags
    at all; otherwise it has the one that comments the line out. *)
Theorem on_apply_blank_flags (env : Env) (u : Ui) :
  all_spaces (list_ascii_of_string (schedext_flags_edit u)) = true ->
  filter is_StartDetached (trace (on_apply u env)) =
    [launched env u
       (if contains "#SCX_FLAGS=" (read_whole_file env scx_conf_path)
        then EmptyString else "-e 's/SCX_FLAGS=/#SCX_FLAGS=/'")].
Proof.
  intros Hs. rewrite on_apply_trace. simpl.
  assert (Ht : trimmed (schedext_flags_edit u) = EmptyString).
  { pose proof (trimmed_strips _ [] [] Hs eq_refl eq_refl) as Hx.
    rewrite app_nil_r, string_of_list_ascii_of_string in Hx. exact Hx. }
  rewrite Ht. simpl.
  destruct (contains "#SCX_FLAGS=" (read_whole_file env scx_conf_path)); reflexivity.
Qed.

Lemma on_apply_blank_flags_witness :
  filter is_StartDetached
    (trace (on_apply (Sample.ui_of "  " "scx_rusty") Sample.env_enabled_no_ops)) =
    [launched Sample.env_enabled_no_ops (Sample.ui_of "  " "scx_rusty") EmptyString].
Proof.
  apply (on_apply_blank_flags Sample.env_enabled_no_ops (Sample.ui_of "  " "scx_rusty")).
  reflexivity.
Defined.

(** *** When the flags count as commented *)

Lemma substring_prefix_app (s t : string) :
  substring 0 (String.length s) (s ++ t) = s.
Proof.
  induction s as [| c s IH]; simpl; [now destruct t | now rewrite IH].
Qed.

Lemma substring_prefix_split (s1 : string) : forall s2,
  substring 0 (String.length s1) s2 = s1 -> exists post, s2 = s1 ++ post.
Proof.
  induction s1 as [| a s1 IH]; intros s2 Hs; simpl in *.
  - now exists s2.
  - destruct s2 as [| c s2]; [discriminate |].
    injection Hs as -> Hs. destruct (IH s2 Hs) as [post ->]. now exists post.
Qed.

Lemma index_cons needle b s :
  index 0 needle (String b s) =
    if prefix needle (String b s) then Some 0
    else match index 0 needle s with
         | Some n => Some (S n)
         | None => None
         end.
Proof. reflexivity. Qed.

Lemma contains_app needle pre post : contains needle (pre ++ needle ++ post) = true.
Proof.
  unfold contains. induction pre as [| b pre IH].
  - change (EmptyString ++ needle ++ post) with (needle ++ post).
    destruct (needle ++ post) as [| b s2] eqn:E.
    + destruct needle; [reflexivity | discriminate].
    + rewrite index_cons, <- E.
      now rewrite (proj2 (prefix_correct needle (needle ++ post))
                     (substring_prefix_app needle post)).
  - change (String b pre ++ needle ++ post) with (String b (pre ++ needle ++ post)).
    rewrite index_cons.
    destruct (prefix needle (String b (pre ++ needle ++ post))); [reflexivity |].
    now destruct (index 0 needle (pre ++ needle ++ post)).
Qed.

Lemma contains_split needle : forall s,
  contains needle s = true -> exists pre post, s = pre ++ needle ++ post.
Proof.
  unfold contains. induction s as [| b s IH]; intros Hc.
  - destruct needle; [| discriminate]. now exists EmptyString, EmptyString.
  - rewrite index_cons in Hc.
    destruct (prefix needle (String b s)) eqn:Hp.
    + apply prefix_correct, substring_prefix_split in Hp. destruct Hp as [post Hp].
      exists EmptyString, post. exact Hp.
    + destruct (index 0 needle s); [| discriminate].
      destruct (IH eq_refl) as (pre & post & ->).
      now exists (String b pre), post.
Qed.

(** X8: the flags count as commented exactly when the text
    [#SCX_FLAGS=] occurs somewhere in the configuration file, be it in
    the flags line or anywhere else. *)
Theorem is_flags_commented_anywhere (env : Env) :
  value (is_flags_commented env) = true <->
  exists pre post, read_whole_file env scx_conf_path = pre ++ "#SCX_FLAGS=" ++ post.
Proof.
  assert (Hv : value (is_flags_commented env) =
               contains "#SCX_FLAGS=" (read_whole_file env scx_conf_path))
    by reflexivity.
  rewrite Hv. split.
  - apply contains_split.
  - intros (pre & post & ->). exact (contains_app "#SCX_FLAGS=" pre post).
Qed.

Lemma is_flags_commented_anywhere_witness :
  value (is_flags_commented env_two_lines) = true.
Proof.
  apply (proj2 (is_flags_commented_anywhere env_two_lines)).
  exists "# example: ", ("'-k'" ++ nl ++ "SCX_SCHEDULER=scx_rusty" ++ nl
                           ++ "SCX_FLAGS='-v'" ++ nl).
  reflexivity.
Defined.

End SchedExtMore.

(** ** More on the kernel window *)

Module KernelManagerMore.
Import Text KernelManager Props Behaviour KernelManagerFacts.

Section More.
Context {Handle : Type} `{Libalpm Handle}.

(** *** What a batch passes over and what it calls *)

Lemma install_selected_nothing kernels handle selected :
  nothing_to_install kernels handle selected = true ->
  install_selected kernels selected handle = (handle, []).
Proof.
  unfold nothing_to_install, install_selected.
  destruct (find _ kernels) as [kernel |]; [| reflexivity].
  intros Hn. apply andb_prop in Hn. destruct Hn as [Hi Hu].
  apply negb_true_iff in Hu. now rewrite Hi, Hu.
Qed.

Lemma remove_selected_nothing kernels handle selected :
  nothing_to_remove kernels handle selected = true ->
  remove_selected kernels selected handle = (handle, []).
Proof.
  unfold nothing_to_remove, remove_selected.
  destruct (find _ kernels) as [kernel |]; [| reflexivity].
  intros Hn. apply negb_true_iff in Hn. now rewrite Hn.
Qed.

Lemma for_each_nothing (body : string -> Handle -> Handle * list event)
    (p : string -> bool) handle :
  (forall s, p s = true -> body s handle = (handle, [])) ->
  forall selected_list,
    forallb p selected_list = true ->
    for_each body selected_list handle = (handle, []).
Proof.
  intros Hbody. induction selected_list as [| s rest IH]; simpl; intros Hall.
  - reflexivity.
  - apply andb_prop in Hall. destruct Hall as [Hs Hrest].
    unfold and_then. now rewrite (Hbody s Hs), (IH Hrest).
Qed.

(** X9: selected names that are no kernel of the list, or kernels
    already installed without an update, make [install_packages] a no-op:
    it returns true with the database as it was and nothing called or
    logged.  Likewise [remove_packages] does nothing for names that are
    no kernel of the list or kernels that are not installed. *)
Theorem batches_nothing_to_do (handle : Handle) (kernels : list Kernel)
    (selected_list : list string) :
  (forallb (nothing_to_install kernels handle) selected_list = true ->
   install_packages handle kernels selected_list = (true, handle, []))
  /\ (forallb (nothing_to_remove kernels handle) selected_list = true ->
      remove_packages handle kernels selected_list = (true, handle, [])).
Proof.
  split; intros Hall.
  - unfold install_packages.
    now rewrite (for_each_nothing _ _ handle
                   (install_selected_nothing kernels handle) selected_list Hall).
  - unfold remove_packages.
    now rewrite (for_each_nothing _ _ handle
                   (remove_selected_nothing kernels handle) selected_list Hall).
Qed.








(** X19: confirming a change list that names one kernel, installed and
    without an update, makes exactly one call into libalpm before the
    commit, the removal of that kernel: such is the effect of unchecking
    an installed kernel.  A failed call adds its line on the standard
    error and the commit still follows. *)
Theorem transaction_removes_installed (w : MainWindow Handle) (name : QString)
    (kernel : Kernel) :
  m_change_list w = [name] ->
  find (fun el => get_raw el =? toStdString name) (m_kernels w) = Some kernel ->
  is_installed kernel (m_handle w) = true ->
  is_update_available kernel (m_handle w) = false ->
  log (transaction w) =
    (log w
       ++ CallRemove (get_raw kernel) (fst (remove kernel (m_handle w)))
       :: (if fst (remove kernel (m_handle w)) then []
           else [Stderr ("failed to add package to be removed ("
                           ++ alpm_last_error (snd (remove kernel (m_handle w)))
                           ++ ")" ++ nl)])
       ++ [CallCommit])%list
  /\ m_handle (transaction w) = commit_transaction (snd (remove kernel (m_handle w))).
Proof.
  intros Hl Hf Hi Hu.
  assert (Hinst : install_packages (m_handle w) (m_kernels w)
                    (map toStdString (m_change_list w)) = (true, m_handle w, [])).
  { rewrite Hl. unfold install_packages. cbn [map for_each].
    unfold and_then, install_selected. now rewrite Hf, Hi, Hu. }
  assert (Hrem : outcome (remove_packages (m_handle w) (m_kernels w)
                            (map toStdString (m_change_list w))) =
                 remove_selected (m_kernels w) (toStdString name) (m_handle w)).
  { rewrite Hl. unfold remove_packages. cbn [map for_each]. unfold and_then.
    destruct (remove_selected _ _ _) as [h1 t1]. unfold outcome. simpl.
    now rewrite app_nil_r. }
  unfold transaction. simpl. rewrite Hinst.
  destruct (remove_packages _ _ _) as [[r2 h2] t2]. unfold outcome in Hrem.
  simpl in Hrem. unfold remove_selected in Hrem. rewrite Hf, Hi in Hrem.
  destruct (remove kernel (m_handle w)) as [[|] h']; simpl in *;
    injection Hrem as -> ->; split; reflexivity.
Qed.

(** X20: confirming a change list that names one kernel that is not
    installed, and that the database still reports as not installed
    once the install call is made (it is so until the commit), makes
    exactly one call into libalpm before the commit, the installation of
    that kernel. *)
Theorem transaction_installs_missing (w : MainWindow Handle) (name : QString)
    (kernel : Kernel) :
  m_change_list w = [name] ->
  find (fun el => get_raw el =? toStdString name) (m_kernels w) = Some kernel ->
  is_installed kernel (m_handle w) = false ->
  is_installed kernel (snd (install kernel (m_handle w))) = false ->
  log (transaction w) =
    (log w
       ++ CallInstall (get_raw kernel) (fst (install kernel (m_handle w)))
       :: (if fst (install kernel (m_handle w)) then []
           else [Stderr ("failed to add package to be installed ("
                           ++ alpm_last_error (snd (install kernel (m_handle w)))
                           ++ ")" ++ nl)])
       ++ [CallCommit])%list
  /\ m_handle (transaction w) = commit_transaction (snd (install kernel (m_handle w))).
Proof.
  intros Hl Hf Hi Hi'.
  assert (Hinst : outcome (install_packages (m_handle w) (m_kernels w)
                             (map toStdString (m_change_list w))) =
                  install_selected (m_kernels w) (toStdString name) (m_handle w)).
  { rewrite Hl. unfold install_packages. cbn [map for_each]. unfold and_then.
    destruct (install_selected _ _ _) as [h1 t1]. unfold outcome. simpl.
    now rewrite app_nil_r. }
  assert (Hrem : remove_packages (snd (install kernel (m_handle w))) (m_kernels w)
                   (map toStdString (m_change_list w)) =
                 (true, snd (install kernel (m_handle w)), [])).
  { rewrite Hl. unfold remove_packages. cbn [map for_each].
    unfold and_then, remove_selected. now rewrite Hf, Hi'. }
  unfold transaction. simpl.
  destruct (install_packages _ _ _) as [[r1 h1] t1]. unfold outcome in Hinst.
  simpl in Hinst. unfold install_selected in Hinst. rewrite Hf, Hi in Hinst.
  simpl in Hinst.
  destruct (install kernel (m_handle w)) as [[|] h']; simpl in *;
    injection Hinst as -> ->; rewrite Hrem; simpl; split; reflexivity.
Qed.

(** *** The worker between confirmations *)

Lemma transaction_set_worker p (w : MainWindow Handle) :
  transaction (set_worker p w) = set_worker p (transaction w).
Proof.
  unfold transaction. simpl.
  destruct (install_packages _ _ _) as [[r1 h1] t1].
  destruct (remove_packages _ _ _) as [[r2 h2] t2]. reflexivity.
Qed.

Lemma worker_run_idle n (w : MainWindow Handle) :
  m_worker_th w = AtWait -> m_running w = false -> worker_run n w = w.
Proof.
  intros Hp Hr. induction n as [| n IH]; simpl; [reflexivity |].
  unfold worker_step. now rewrite Hp, Hr.
Qed.

(** The three moves from the wait to the next wait, both flags set. *)
Lemma worker_run_transaction n (w : MainWindow Handle) :
  m_worker_th w = AtWait -> m_running w = true -> m_thread_running w = true ->
  3 <= n ->
  worker_run n w = set_worker AtWait (add_log [waiting_line] (transaction w)).
Proof.
  intros Hp Hr Ht Hn.
  destruct (transaction_fields w) as (_ & Hr' & Ht' & _).
  destruct n as [| [| [| n]]]; try lia. simpl.
  unfold worker_step at 3. rewrite Hp, Hr.
  unfold worker_step at 2. simpl. rewrite Hr, Ht. simpl.
  unfold worker_step at 1. simpl.
  rewrite transaction_set_worker. simpl. rewrite Ht', Ht.
  rewrite worker_run_idle; simpl; try reflexivity; assumption.
Qed.

Lemma on_execute_parked (w : MainWindow Handle) :
  m_running w = false -> m_worker_th w = AtWait ->
  on_execute w = notify_all (set_thread_running true (set_running true w)).
Proof. intros Hr Hp. unfold on_execute. rewrite Hr. simpl. now rewrite Hp. Qed.

Lemma on_execute_first (w : MainWindow Handle) :
  m_running w = false -> m_worker_th w = NotStarted ->
  on_execute w =
    set_worker AtWhile (notify_all (set_thread_running true (set_running true w))).
Proof. intros Hr Hp. unfold on_execute. rewrite Hr. simpl. now rewrite Hp. Qed.

(** X12: a worker parked in the wait does nothing at all while the
    running flag is clear, however often it wakes.  After [on_execute]
    it runs exactly one transaction, prints its line and is back in the
    wait with the running flag clear, and further moves change nothing.
    The first [on_execute] starts the thread, which prints the line once
    more on its way to the wait. *)
Theorem one_transaction_per_confirmation (w : MainWindow Handle) (n : nat) :
  m_running w = false ->
  (m_worker_th w = AtWait ->
   worker_run n w = w
   /\ (3 <= n ->
       worker_run n (on_execute w) =
         set_worker AtWait (add_log [waiting_line] (transaction (on_execute w)))))
  /\ (m_worker_th w = NotStarted -> 4 <= n ->
      worker_run n (on_execute w) =
        set_worker AtWait
          (add_log [waiting_line]
             (transaction (add_log [waiting_line] (on_execute w))))).
Proof.
  intros Hr. split.
  - intros Hp. split; [now apply worker_run_idle |]. intros Hn.
    rewrite (on_execute_parked w Hr Hp).
    apply worker_run_transaction; [exact Hp | reflexivity | reflexivity | exact Hn].
  - intros Hp Hn. destruct n as [| n]; [lia |].
    rewrite (on_execute_first w Hr Hp).
    set (w1 := notify_all (set_thread_running true (set_running true w))).
    change (worker_run (S n) (set_worker AtWhile w1))
      with (worker_run n (worker_step (set_worker AtWhile w1))).
    assert (Hstep : worker_step (set_worker AtWhile w1) =
                      set_worker AtWait (add_log [waiting_line] w1)) by reflexivity.
    rewrite Hstep.
    rewrite worker_run_transaction; [| reflexivity | reflexivity | reflexivity | lia].
    rewrite !transaction_set_worker.
    assert (Hlog : add_log [waiting_line] (set_worker AtWhile w1) =
                   set_worker AtWhile (add_log [waiting_line] w1)) by reflexivity.
    rewrite Hlog, transaction_set_worker. reflexivity.
Qed.



Lemma worker_step_frame (w : MainWindow Handle) :
  m_thread_running (worker_step w) = m_thread_running w
  /\ m_cv (worker_step w) = m_cv w
  /\ treeKernels (worker_step w) = treeKernels w
  /\ currentItem (worker_step w) = currentItem w
  /\ m_kernels (worker_step w) = m_kernels w.
Proof.
  unfold worker_step. destruct (m_worker_th w).
  - repeat split.
  - destruct (m_thread_running w) eqn:Et; repeat split; exact Et.
  - destruct (m_running w); repeat split.
  - destruct (m_running w && m_thread_running w); [| repeat split].
    unfold transaction. simpl.
    destruct (install_packages _ _ _) as [[r1 h1] t1].
    destruct (remove_packages _ _ _) as [[r2 h2] t2]. repeat split.
  - repeat split.
Qed.

Lemma worker_step_alive (w : MainWindow Handle) :
  m_thread_running w = true -> m_worker_th w <> Returned ->
  m_worker_th (worker_step w) <> Returned.
Proof.
  intros Ht Hp. unfold worker_step.
  destruct (m_worker_th w) eqn:E; rewrite ?Ht; try congruence;
    destruct (m_running w); simpl; congruence.
Qed.

(** X14: the worker never writes the thread flag, the condition
    variable, the tree or the kernels; so as long as the thread flag is
    set it never leaves its loop, whatever the running flag does: only
    [closeEvent] ends it. *)
Theorem worker_never_stops_itself (w : MainWindow Handle) (n : nat) :
  (m_thread_running (worker_run n w) = m_thread_running w
   /\ m_cv (worker_run n w) = m_cv w
   /\ treeKernels (worker_run n w) = treeKernels w
   /\ currentItem (worker_run n w) = currentItem w
   /\ m_kernels (worker_run n w) = m_kernels w)
  /\ (m_thread_running w = true -> m_worker_th w <> Returned ->
      m_worker_th (worker_run n w) <> Returned).
Proof.
  revert w. induction n as [| n IH]; intros w; simpl.
  - repeat split. auto.
  - destruct (worker_step_frame w) as (F1 & F2 & F3 & F4 & F5).
    destruct (IH (worker_step w)) as [(G1 & G2 & G3 & G4 & G5) Galive].
    split; [repeat split; congruence |].
    intros Ht Hp. apply Galive; [congruence |]. now apply worker_step_alive.
Qed.

(** X15: a second [on_execute] right after the first changes nothing,
    and neither does one after [closeEvent]: in both cases the running
    flag is already set. *)
Theorem on_execute_idempotent (w : MainWindow Handle) :
  on_execute (on_execute w) = on_execute w
  /\ on_execute (closeEvent w) = closeEvent w
  /\ m_running (on_execute w) = true.
Proof.
  assert (Hset : forall x : MainWindow Handle, m_running (on_execute x) = true).
  { intros x. unfold on_execute. destruct (m_running x) eqn:E; [exact E |].
    simpl. destruct (m_worker_th x); reflexivity. }
  assert (Hnoop : forall x : MainWindow Handle, m_running x = true -> on_execute x = x).
  { intros x E. unfold on_execute. now rewrite E. }
  split; [apply Hnoop, Hset |]. split; [now apply Hnoop | apply Hset].
Qed.

(** *** Toggles *)

Ltac toggle_unfold Hi :=
  unfold toggle, itemDoubleClicked, checkUncheckItem, setCheckState, item_changed,
    buildChangeList;
  repeat (simpl; rewrite ?Hi, ?(nth_error_replace_nth_eq _ _ _ _ Hi)).

Ltac toggle_cases Hi item :=
  let Hs := fresh "Hs" in
  let Him := fresh "Him" in
  destruct (checkState item) eqn:Hs, (Immutable item =? "true") eqn:Him;
  repeat (simpl; rewrite ?Hi, ?Hs, ?Him, ?(nth_error_replace_nth_eq _ _ _ _ Hi)).

Lemma toggle_row (w : MainWindow Handle) i item :
  nth_error (treeKernels w) i = Some item -> childCount item = 0 ->
  treeKernels (toggle w i) = replace_nth i (toggled item) (treeKernels w)
  /\ m_change_list (toggle w i) =
       (if is_immutable item || negb (is_checked item)
        then (m_change_list w ++ [PkgName item])%list
        else removeOne (PkgName item) (m_change_list w)).
Proof.
  intros Hi Hc. toggle_unfold Hi. rewrite Hc. simpl.
  unfold toggled, is_immutable, is_checked.
  toggle_cases Hi item;
    repeat match goal with
           | |- context [isEmpty ?l] => destruct (isEmpty l)
           end; split; reflexivity.
Qed.

Lemma toggle_inert (w : MainWindow Handle) i item :
  nth_error (treeKernels w) i = Some item -> childCount item <> 0 ->
  treeKernels (toggle w i) = treeKernels w
  /\ m_change_list (toggle w i) = m_change_list w.
Proof.
  intros Hi Hc. toggle_unfold Hi.
  destruct (childCount item); [now elim Hc | now split].
Qed.

Lemma toggle_frame (w : MainWindow Handle) i :
  m_running (toggle w i) = m_running w
  /\ m_thread_running (toggle w i) = m_thread_running w
  /\ m_cv (toggle w i) = m_cv w
  /\ m_worker_th (toggle w i) = m_worker_th w
  /\ m_handle (toggle w i) = m_handle w
  /\ m_kernels (toggle w i) = m_kernels w
  /\ log (toggle w i) = log w.
Proof.
  destruct (nth_error (treeKernels w) i) as [item |] eqn:Hi.
  - toggle_unfold Hi.
    destruct (0 <? childCount item)%nat; [repeat split |].
    toggle_cases Hi item;
      repeat match goal with
             | |- context [isEmpty ?l] => destruct (isEmpty l)
             end; repeat split; reflexivity.
  - toggle_unfold Hi. repeat split.
Qed.

Lemma toggle_rows (w : MainWindow Handle) i :
  map PkgName (treeKernels (toggle w i)) = map PkgName (treeKernels w)
  /\ map Immutable (treeKernels (toggle w i)) = map Immutable (treeKernels w)
  /\ map childCount (treeKernels (toggle w i)) = map childCount (treeKernels w).
Proof.
  destruct (toggle_effect w i) as [[-> _] | (item & Hi & -> & _)];
    [repeat split |].
  repeat split; now apply (map_replace_nth _ _ i (toggled item) item).
Qed.

(** X16: toggling rows never touches the two flags, the condition
    variable, the worker, the database or the log: nothing is installed
    or removed before the user confirms.  Nor does it add, drop, rename
    or re-mark a row of the tree. *)
Theorem toggles_frame (w : MainWindow Handle) (rows : list nat) :
  (m_running (toggles w rows) = m_running w
   /\ m_thread_running (toggles w rows) = m_thread_running w
   /\ m_cv (toggles w rows) = m_cv w
   /\ m_worker_th (toggles w rows) = m_worker_th w
   /\ m_handle (toggles w rows) = m_handle w
   /\ m_kernels (toggles w rows) = m_kernels w
   /\ log (toggles w rows) = log w)
  /\ (map PkgName (treeKernels (toggles w rows)) = map PkgName (treeKernels w)
      /\ map Immutable (treeKernels (toggles w rows)) = map Immutable (treeKernels w)
      /\ map childCount (treeKernels (toggles w rows)) = map childCount (treeKernels w)).
Proof.
  unfold toggles. revert w. induction rows as [| i rows IH]; intros w; simpl.
  - repeat split.
  - destruct (IH (toggle w i)) as [(A1 & A2 & A3 & A4 & A5 & A6 & A7) (B1 & B2 & B3)].
    destruct (toggle_frame w i) as (F1 & F2 & F3 & F4 & F5 & F6 & F7).
    destruct (toggle_rows w i) as (R1 & R2 & R3).
    repeat split; congruence.
Qed.

Lemma toggle_ok (w : MainWindow Handle) i :
  ok_matches w = true -> ok_matches (toggle w i) = true.
Proof.
  intros Hok. unfold ok_matches in *.
  destruct (nth_error (treeKernels w) i) as [item |] eqn:Hi.
  - toggle_unfold Hi.
    destruct (0 <? childCount item)%nat; [exact Hok |].
    toggle_cases Hi item.
    all: try (destruct (m_change_list w); reflexivity).
    all: destruct (removeOne (PkgName item) (m_change_list w)) eqn:Hr; simpl;
      try reflexivity.
    all: destruct (m_change_list w); simpl in *; try discriminate; exact Hok.
  - toggle_unfold Hi. exact Hok.
Qed.

(** X17: if the form starts with the confirmation button disabled,
    then after any sequence of toggles the button is enabled exactly
    when the change list holds something. *)
Theorem ok_button_follows_change_list (hdr : Header) (handle : Handle)
    (kernels : list Kernel) (rows : list nat) :
  init_ok hdr = false ->
  ok (toggles (MainWindow_new hdr handle kernels) rows) =
    negb (isEmpty (m_change_list (toggles (MainWindow_new hdr handle kernels) rows))).
Proof.
  intros Hok. apply Bool.eqb_prop.
  assert (Hinv : forall rows (w : MainWindow Handle),
             ok_matches w = true -> ok_matches (toggles w rows) = true).
  { unfold toggles. induction rows0 as [| i rows0 IH]; intros w Hw; simpl;
      [exact Hw | now apply IH, toggle_ok]. }
  apply Hinv. unfold ok_matches. simpl. now rewrite Hok.
Qed.

Lemma replace_nth_same {A} (l : list A) i x y :
  nth_error l i = Some x -> replace_nth i x (replace_nth i y l) = l.
Proof.
  revert i. induction l as [| a l IH]; intros [| i] Hi; simpl in *;
    try discriminate.
  - now injection Hi as ->.
  - now rewrite (IH i Hi).
Qed.

Lemma removeOne_last l name :
  ~ In name l -> removeOne name (l ++ [name]) = l.
Proof.
  induction l as [| a l IH]; simpl; intros Hn.
  - now rewrite String.eqb_refl.
  - destruct (String.eqb_spec a name) as [-> | _]; [now elim Hn; left |].
    rewrite IH; [reflexivity | tauto].
Qed.

(** X18: checking a row that is unchecked and not immutable, and
    unchecking it again, restores the tree and the change list exactly
    as they were, whatever was toggled before. *)
Theorem toggle_twice_restores (hdr : Header) (handle : Handle)
    (kernels : list Kernel) (rows : list nat) (i : nat) (item : QTreeWidgetItem) :
  NoDup (map get_raw kernels) ->
  nth_error (treeKernels (toggles (MainWindow_new hdr handle kernels) rows)) i
    = Some item ->
  is_immutable item = false -> checkState item = Unchecked ->
  treeKernels (toggles (toggles (MainWindow_new hdr handle kernels) rows) [i; i]) =
    treeKernels (toggles (MainWindow_new hdr handle kernels) rows)
  /\ m_change_list (toggles (toggles (MainWindow_new hdr handle kernels) rows) [i; i]) =
       m_change_list (toggles (MainWindow_new hdr handle kernels) rows).
Proof.
  intros Hnd Hi Him Hs.
  set (w := toggles (MainWindow_new hdr handle kernels) rows) in *.
  pose proof (change_list_inv_toggles _ rows (change_list_inv_new hdr handle kernels Hnd))
    as Hinv. fold w in Hinv.
  assert (Hchk : is_checked item = false) by (unfold is_checked; now rewrite Hs).
  assert (Hnot : ~ In (PkgName item) (m_change_list w)).
  { apply (count_occ_not_In string_dec).
    pose proof (mutable_rows _ _ Hinv i item Hi Him) as Hocc.
    now rewrite Hchk in Hocc. }
  unfold toggles. simpl.
  destruct (Nat.eq_dec (childCount item) 0) as [Hc | Hc].
  - destruct (toggle_row w i item Hi Hc) as [Ht1 Hl1].
    rewrite Him, Hchk in Hl1. simpl in Hl1.
    assert (Hi1 : nth_error (treeKernels (toggle w i)) i = Some (toggled item)).
    { rewrite Ht1. exact (nth_error_replace_nth_eq _ _ _ _ Hi). }
    destruct (toggle_row (toggle w i) i (toggled item) Hi1 Hc) as [Ht2 Hl2].
    change (is_immutable (toggled item)) with (is_immutable item) in Hl2.
    rewrite is_checked_toggled, Him, Hchk in Hl2. simpl in Hl2.
    rewrite Ht2, Hl2, Ht1, Hl1. split.
    + assert (Hback : toggled (toggled item) = item).
      { unfold toggled, is_checked. destruct item; simpl in *. now subst. }
      rewrite Hback. now apply replace_nth_same.
    + now apply removeOne_last.
  - destruct (toggle_inert w i item Hi Hc) as [Ht1 Hl1].
    assert (Hi1 : nth_error (treeKernels (toggle w i)) i = Some item)
      by now rewrite Ht1.
    destruct (toggle_inert (toggle w i) i item Hi1 Hc) as [Ht2 Hl2].
    split; congruence.
Qed.

(** *** Inside the body of the worker *)

Lemma window_eq (a b : MainWindow Handle) :
  m_running a = m_running b -> m_thread_running a = m_thread_running b ->
  m_cv a = m_cv b -> m_worker_th a = m_worker_th b ->
  m_change_list a = m_change_list b -> m_handle a = m_handle b ->
  m_kernels a = m_kernels b -> treeKernels a = treeKernels b ->
  currentItem a = currentItem b -> focusWidget a = focusWidget b ->
  ok a = ok b -> log a = log b -> a = b.
Proof. destruct a, b; simpl; intros; subst; reflexivity. Qed.

Lemma log_twice h1 h2 t1 t2 (w : MainWindow Handle) :
  set_handle h2 (add_log t2 (set_handle h1 (add_log t1 w))) =
  set_handle h2 (add_log (t1 ++ t2) w).
Proof. apply window_eq; simpl; auto using app_assoc. Qed.

Lemma log_none (w : MainWindow Handle) : set_handle (m_handle w) (add_log [] w) = w.
Proof. apply window_eq; simpl; auto using app_nil_r. Qed.

Lemma body_run_commit k (w : MainWindow Handle) h t :
  body_run (3 + k) AtCommit (set_handle h (add_log t w)) = (committed h t w, None).
Proof.
  simpl. f_equal. apply window_eq; simpl; auto.
  now rewrite app_assoc.
Qed.

Lemma body_run_remove todo : forall cl k (w : MainWindow Handle) h t,
  body_run (length todo + 4 + k) (AtRemove cl todo) (set_handle h (add_log t w)) =
    (committed (fst (for_each (remove_selected (m_kernels w)) todo h))
       (t ++ snd (for_each (remove_selected (m_kernels w)) todo h)) w, None).
Proof.
  induction todo as [| s todo IH]; intros cl k w h t.
  - change (length [] + 4 + k) with (S (3 + k)). cbn [body_run body_step].
    rewrite body_run_commit. cbn [for_each fst snd]. now rewrite app_nil_r.
  - change (length (s :: todo) + 4 + k) with (S (length todo + 4 + k)).
    cbn [body_run body_step for_each]. unfold and_then.
    cbn [m_kernels m_handle set_handle add_log].
    destruct (remove_selected (m_kernels w) s h) as [h1 t1].
    rewrite log_twice, IH. cbn [m_kernels].
    destruct (for_each (remove_selected (m_kernels w)) todo h1) as [h2 t2].
    cbn [fst snd]. now rewrite app_assoc.
Qed.

Lemma body_run_install todo : forall cl k (w : MainWindow Handle) h t,
  body_run (length todo + length cl + 5 + k) (AtInstall cl todo)
    (set_handle h (add_log t w)) =
    (committed
       (fst (for_each (remove_selected (m_kernels w)) cl
               (fst (for_each (install_selected (m_kernels w)) todo h))))
       (t ++ snd (for_each (install_selected (m_kernels w)) todo h)
          ++ snd (for_each (remove_selected (m_kernels w)) cl
                    (fst (for_each (install_selected (m_kernels w)) todo h)))) w,
     None).
Proof.
  induction todo as [| s todo IH]; intros cl k w h t.
  - replace (length [] + length cl + 5 + k) with (S (length cl + 4 + k))
      by (simpl; lia).
    cbn [body_run body_step]. rewrite body_run_remove. reflexivity.
  - change (length (s :: todo) + length cl + 5 + k)
      with (S (length todo + length cl + 5 + k)).
    cbn [body_run body_step for_each]. unfold and_then.
    cbn [m_kernels m_handle set_handle add_log].
    destruct (install_selected (m_kernels w) s h) as [h1 t1].
    rewrite log_twice, IH. cbn [m_kernels].
    destruct (for_each (install_selected (m_kernels w)) todo h1) as [h2 t2].
    cbn [fst snd]. now rewrite <- !app_assoc.
Qed.

Lemma transaction_committed (w : MainWindow Handle) :
  transaction w =
    committed
      (fst (for_each (remove_selected (m_kernels w)) (map toStdString (m_change_list w))
              (fst (for_each (install_selected (m_kernels w))
                      (map toStdString (m_change_list w)) (m_handle w)))))
      (snd (for_each (install_selected (m_kernels w))
              (map toStdString (m_change_list w)) (m_handle w))
         ++ snd (for_each (remove_selected (m_kernels w))
                   (map toStdString (m_change_list w))
                   (fst (for_each (install_selected (m_kernels w))
                           (map toStdString (m_change_list w)) (m_handle w))))) w.
Proof.
  unfold transaction. simpl.
  rewrite install_packages_outcome, remove_packages_outcome.
  apply window_eq; simpl; auto. now rewrite <- !app_assoc.
Qed.

Lemma transaction_ok b (w : MainWindow Handle) :
  transaction (ok_setEnabled b w) = transaction w.
Proof.
  unfold transaction. simpl.
  destruct (install_packages _ _ _) as [[r1 h1] t1].
  destruct (remove_packages _ _ _) as [[r2 h2] t2]. reflexivity.
Qed.

(** From any point the body runs to its end in [moves_left] moves, and
    what it does on the way is what the batches do. *)
Lemma body_run_rest (p : BodyPoint) (w : MainWindow Handle) (k : nat) :
  body_run (moves_left p w + k) p w = (rest_of_body p w, None).
Proof.
  assert (Hinstall : forall cl todo k' (x : MainWindow Handle),
             body_run (length todo + length cl + 5 + k') (AtInstall cl todo) x =
               (rest_of_body (AtInstall cl todo) x, None)).
  { intros cl todo k' x. rewrite <- (log_none x) at 1.
    rewrite body_run_install. reflexivity. }
  assert (Hsnap : forall k' (x : MainWindow Handle),
             body_run (2 * length (m_change_list x) + 6 + k') AtSnapshot x =
               (transaction x, None)).
  { intros k' x.
    replace (2 * length (m_change_list x) + 6 + k')
      with (S (length (map toStdString (m_change_list x))
               + length (map toStdString (m_change_list x)) + 5 + k'))
      by (rewrite length_map; lia).
    cbn [body_run body_step]. rewrite Hinstall.
    now rewrite (transaction_committed x). }
  destruct p as [| | cl todo | cl todo | | |]; cbn [moves_left rest_of_body].
  - replace (2 * length (m_change_list w) + 7 + k)
      with (S (2 * length (m_change_list (ok_setEnabled false w)) + 6 + k))
      by (simpl; lia).
    cbn [body_run body_step]. rewrite Hsnap. now rewrite transaction_ok.
  - apply Hsnap.
  - apply Hinstall.
  - rewrite <- (log_none w) at 1. rewrite body_run_remove. reflexivity.
  - rewrite <- (log_none w) at 1. apply body_run_commit.
  - reflexivity.
  - reflexivity.
Qed.


(** X22: run without anything in between, the moves of the body from
    its first statement to its last amount to the transaction that the
    worker makes in one move: the body ends, in as many moves as the
    two loops need, with the window [transaction] gives. *)
Theorem body_is_transaction (w : MainWindow Handle) (k : nat) :
  body_run (2 * length (m_change_list w) + 7 + k) AtDisable w = (transaction w, None).
Proof.
  pose proof (body_run_rest AtDisable w k) as Hrest.
  cbn [moves_left rest_of_body] in Hrest. exact Hrest.
Qed.

End More.

Import Sample.


Lemma batches_nothing_to_do_witness :
  install_packages db0 kernels0 ["linux-cachyos"; "linux-zen"] = (true, db0, [])
  /\ remove_packages db0 kernels0 ["linux-cachyos-rt"; "linux-zen"] = (true, db0, []).
Proof.
  split.
  - apply (proj1 (batches_nothing_to_do db0 kernels0 ["linux-cachyos"; "linux-zen"])).
    reflexivity.
  - apply (proj2 (batches_nothing_to_do db0 kernels0 ["linux-cachyos-rt"; "linux-zen"])).
    reflexivity.
Defined.


Lemma one_transaction_per_confirmation_witness :
  worker_run 5 window_parked = window_parked
  /\ worker_run 5 (on_execute window_parked) =
       set_worker AtWait
         (add_log [waiting_line] (transaction (on_execute window_parked))).
Proof.
  destruct (proj1 (one_transaction_per_confirmation window_parked 5 eq_refl) eq_refl)
    as [Hidle Hrun].
  split; [exact Hidle | apply Hrun; lia].
Defined.


Lemma worker_never_stops_itself_witness :
  m_worker_th (worker_run 7 window_pending) <> Returned.
Proof.
  apply (proj2 (worker_never_stops_itself window_pending 7));
    [reflexivity | discriminate].
Defined.

Lemma ok_button_follows_change_list_witness :
  ok (toggles (MainWindow_new header0 db0 kernels0) [2; 2]) =
    negb (isEmpty (m_change_list (toggles (MainWindow_new header0 db0 kernels0) [2; 2]))).
Proof.
  apply (ok_button_follows_change_list header0 db0 kernels0 [2; 2]). reflexivity.
Defined.

Lemma toggle_twice_restores_witness :
  m_change_list (toggles (toggles (MainWindow_new header0 db0 kernels0) [1]) [2; 2]) =
    m_change_list (toggles (MainWindow_new header0 db0 kernels0) [1]).
Proof.
  assert (Hnd : NoDup (map get_raw kernels0)).
  { repeat constructor; simpl; intuition discriminate. }
  assert (Hi : nth_error (treeKernels (toggles (MainWindow_new header0 db0 kernels0) [1])) 2
               = Some row_rt) by reflexivity.
  assert (Him : is_immutable row_rt = false) by reflexivity.
  assert (Hs : checkState row_rt = Unchecked) by reflexivity.
  exact (proj2 (toggle_twice_restores header0 db0 kernels0 [1] 2 row_rt Hnd Hi Him Hs)).
Defined.

Lemma transaction_removes_installed_witness :
  log (transaction (toggles window0 [0])) = [CallRemove "linux-cachyos" true; CallCommit].
Proof.
  exact (proj1 (transaction_removes_installed (toggles window0 [0]) "linux-cachyos"
                  linux_cachyos eq_refl eq_refl eq_refl eq_refl)).
Defined.

Lemma transaction_installs_missing_witness :
  log (transaction (toggles window0 [2])) = [CallInstall "linux-cachyos-rt" true; CallCommit].
Proof.
  exact (proj1 (transaction_installs_missing (toggles window0 [2]) "linux-cachyos-rt"
                  linux_cachyos_rt eq_refl eq_refl eq_refl eq_refl)).
Defined.

End KernelManagerMore.
